(** * Schedule endpoint backed by a versioned remote blob

    Shallow embedding of [src/api/jadwal.js] (the request handler, the
    validation rules and the GitHub contents client) and of the variant
    client found in [src/unnamed/part_000].

    JavaScript values are an inductive type; objects that a caller can
    observe after the call (the request body) live in a heap and are
    held by reference, objects decoded from JSON are plain trees.  The
    two remote round trips of a request are nodes of an interaction
    tree, so that what is sent, and whether anything is sent at all, can
    be read off the term. *)

From Stdlib Require Import ZArith String Ascii List Bool Lia.
From stdpp Require Import base strings gmap list pretty.

#[local] Set Warnings "-register-all".
#[local] Open Scope Z_scope.
#[local] Open Scope string_scope.

(* ===================================================================== *)
(** ** JavaScript values *)
(* ===================================================================== *)

Abbreviation loc := positive.

(** Numbers are the integer-valued ones: [VNum n] is the Number whose
    value is [n], or the double nearest to [n] when [n] is not one;
    nothing below depends on a fractional payload.  [VObj] is an object nobody else holds (the
    result of [JSON.parse]); [VRef] is an object shared with the
    caller. *)
Inductive value : Type :=
  | VUndefined
  | VNull
  | VBool (b : bool)
  | VNum (n : Z)
  | VStr (s : string)
  | VArr (xs : list value)
  | VObj (fields : gmap string value)
  | VRef (l : loc).

Abbreviation heap := (gmap loc (gmap string value)).

(** What a [throw] or a rejected promise carries: the object literals
    built by [githubRequest], or an engine [TypeError] (which has a
    [message] and none of the other properties). *)
Record JsError : Type := mkError {
  statusCode : value;
  message : value;
  details : value;
  errors : value
}.

Inductive result (A : Type) : Type :=
  | Ok (a : A)
  | Throw (e : JsError).
Arguments Ok {A} a.
Arguments Throw {A} e.

Definition bind {A B} (r : result A) (k : A -> result B) : result B :=
  match r with
  | Ok a => k a
  | Throw e => Throw e
  end.

Notation "'let*' x ':=' r 'in' k" := (bind r (fun x => k))
  (at level 10, x name, r at level 100, k at level 200).

(** Engine faults the handler can run into, each with the value it was
    raised on ([null] and [undefined] do not give the same text); their
    texts are the engine's and are taken as a parameter where they
    matter. *)
Inductive EngineFault : Type :=
  | ReadOfNullish (v : value) (prop : string)
  | WriteOfNullish (v : value) (prop : string)
  | NotIterable (v : value)
  | NotCallable (v : value) (name : string).

(** [!v] is [negb (truthy v)]. *)
Definition truthy (v : value) : bool :=
  match v with
  | VUndefined | VNull => false
  | VBool b => b
  | VNum n => negb (Z.eqb n 0)
  | VStr s => negb (String.eqb s "")
  | VArr _ | VObj _ | VRef _ => true
  end.

(** [a || b] on values. *)
Definition js_or (a b : value) : value := if truthy a then a else b.

(** [a === b].  Two object trees never are the same object; references
    are compared by address. *)
Definition strict_eq (a b : value) : bool :=
  match a, b with
  | VUndefined, VUndefined => true
  | VNull, VNull => true
  | VBool x, VBool y => Bool.eqb x y
  | VNum x, VNum y => Z.eqb x y
  | VStr x, VStr y => String.eqb x y
  | VRef x, VRef y => Pos.eqb x y
  | _, _ => false
  end.

(** [arr.includes(v)] for an array literal of strings
    (SameValueZero agrees with [===] there). *)
Definition includes (arr : list string) (v : value) : bool :=
  existsb (fun s => strict_eq (VStr s) v) arr.

Fixpoint join (sep : string) (l : list string) : string :=
  match l with
  | [] => ""
  | [x] => x
  | x :: rest => x ++ sep ++ join sep rest
  end.

(** *** Number::toString on integers *)

(** The double nearest to the integer [n > 0] (ties to the even
    mantissa), as mantissa and binary exponent: [m * 2 ^ q]. *)
Definition nearest_double (n : Z) : Z * Z :=
  let e := Z.log2 n in
  if Z.leb e 52 then (n, 0)
  else
    let q := e - 52 in
    let m0 := Z.shiftr n q in
    let rem := n - Z.shiftl m0 q in
    let half := Z.shiftl 1 (q - 1) in
    let m := if Z.ltb half rem || (Z.eqb rem half && Z.odd m0) then m0 + 1 else m0 in
    if Z.eqb m (Z.shiftl 1 53) then (Z.shiftl 1 52, q + 1) else (m, q).

Fixpoint strip_zeros_rev (l : list ascii) : list ascii :=
  match l with
  | c :: rest => if Ascii.eqb c "0" then strip_zeros_rev rest else l
  | [] => []
  end.

(** The decimal digits of [c] without its trailing zeros. *)
Definition significant_digits (c : Z) : string :=
  string_of_list_ascii (rev (strip_zeros_rev (rev (list_ascii_of_string (pretty c))))).

(** The shortest decimal of [k], [k+1], ... digits that still reads back
    as the double [d = m * 2 ^ q], nearest to [d] when there are two. *)
Fixpoint shortest_decimal (fuel : nat) (k : Z) (d m q : Z) : Z :=
  match fuel with
  | O => d
  | S fuel' =>
      let p := Z.of_nat (String.length (pretty d)) in
      let s := 10 ^ (p - k) in
      let lo := (d / s) * s in
      let hi := lo + s in
      let up := Z.shiftl 1 (q - 1) in
      let down := if Z.eqb m (Z.shiftl 1 52) then Z.shiftl 1 (q - 2) else up in
      let even := Z.even m in
      let lo_ok := Z.ltb (d - lo) down || (even && Z.eqb (d - lo) down) in
      let hi_ok := Z.ltb (hi - d) up || (even && Z.eqb (hi - d) up) in
      if lo_ok && hi_ok then
        if Z.ltb (d - lo) (hi - d) then lo
        else if Z.ltb (hi - d) (d - lo) then hi
        else if Z.even (lo / s) then lo else hi
      else if lo_ok then lo
      else if hi_ok then hi
      else shortest_decimal fuel' (k + 1) d m q
  end.

(** Number::toString for a number whose value is the integer [n]: all
    the digits below [10^21], exponent form from there on, [Infinity]
    beyond the largest double. *)
Definition number_text (n : Z) : string :=
  if Z.eqb n 0 then "0"
  else
    let '(m, q) := nearest_double (Z.abs n) in
    let d := Z.shiftl m q in
    let sign := if Z.ltb n 0 then "-" else "" in
    if Z.leb (Z.shiftl 1 1024) d then sign ++ "Infinity"
    else if Z.leb d (Z.shiftl 1 53) then sign ++ pretty d
    else
      let c := shortest_decimal 17 1 d m q in
      let n_digits := Z.of_nat (String.length (pretty c)) in
      if Z.leb n_digits 21 then sign ++ pretty c
      else
        sign
        ++ match significant_digits c with
           | String first EmptyString => String first EmptyString
           | String first rest => String first ("." ++ rest)
           | EmptyString => ""
           end
        ++ "e+" ++ pretty (n_digits - 1).

(** ToString, as applied by template literals and by [RegExp.test]. *)
Fixpoint toString (v : value) : string :=
  match v with
  | VUndefined => "undefined"
  | VNull => "null"
  | VBool true => "true"
  | VBool false => "false"
  | VNum n => number_text n
  | VStr s => s
  | VArr xs =>
      join ","
        ((fix elems (l : list value) : list string :=
            match l with
            | [] => []
            | x :: rest =>
                match x with
                | VUndefined | VNull => ""
                | _ => toString x
                end :: elems rest
            end) xs)
  | VObj _ | VRef _ => "[object Object]"
  end.

(* ===================================================================== *)
(** ** The platform *)
(* ===================================================================== *)

(** What the runtime provides and the repository does not define: the
    JSON codec, the base64 codec of [Buffer], the text of engine errors,
    and [Date] parsing outside the date-time string format. *)
Class Engine : Type := {
  (** text of an engine [TypeError] *)
  fault_text : EngineFault -> string;
  (** [JSON.parse]: the value, or the message of the [SyntaxError] *)
  JSON_parse : string -> value + string;
  (** [Buffer.from(JSON.stringify(v, null, 2)).toString("base64")] *)
  encode_content : value -> string;
  (** [Buffer.from(c, "base64").toString("utf8")], which throws on some
      arguments that are not strings *)
  decode_content : value -> result string;
  (** [process.env.GITHUB_TOKEN] *)
  TOKEN : option string;
  (** [new Date(s)] on a string that is not of the form
      [1970-01-01THH:mm:ss]; [None] is Invalid Date *)
  Date_parse_other : string -> option Z;
  (** offset of local time from UTC on 1970-01-01, in milliseconds *)
  local_offset : Z
}.

Section Values.
Context `{Engine}.

Definition type_error (f : EngineFault) : JsError :=
  mkError VUndefined (VStr (fault_text f)) VUndefined VUndefined.

Definition lookup_field (o : gmap string value) (k : string) : value :=
  default VUndefined (o !! k).

(** [v.k] for the property names the program reads ([class], [id],
    [content], ...): none of them is inherited from a prototype, so on a
    primitive or an array the read gives [undefined]. *)
Definition getProp (h : heap) (v : value) (k : string) : result value :=
  match v with
  | VUndefined | VNull => Throw (type_error (ReadOfNullish v k))
  | VObj o => Ok (lookup_field o k)
  | VRef l => Ok (lookup_field (default ∅ (h !! l)) k)
  | _ => Ok VUndefined
  end.

End Values.

Definition nullish (v : value) : bool :=
  match v with
  | VUndefined | VNull => true
  | _ => false
  end.

(** The value of [v.k] when [v] is not nullish. *)
Definition field (h : heap) (v : value) (k : string) : value :=
  match v with
  | VObj o => lookup_field o k
  | VRef l => lookup_field (default ∅ (h !! l)) k
  | _ => VUndefined
  end.

(* ===================================================================== *)
(** ** Regular expressions *)
(* ===================================================================== *)

Inductive regex : Type :=
  | RFail
  | REps
  | RChar (c : ascii)
  | RRange (lo hi : ascii)
  | RCat (r1 r2 : regex)
  | RAlt (r1 r2 : regex)
  | ROpt (r : regex).

Definition in_range (lo hi c : ascii) : bool :=
  (nat_of_ascii lo <=? nat_of_ascii c)%nat && (nat_of_ascii c <=? nat_of_ascii hi)%nat.

Fixpoint nullable (r : regex) : bool :=
  match r with
  | RFail | RChar _ | RRange _ _ => false
  | REps | ROpt _ => true
  | RCat r1 r2 => nullable r1 && nullable r2
  | RAlt r1 r2 => nullable r1 || nullable r2
  end.

Fixpoint deriv (c : ascii) (r : regex) : regex :=
  match r with
  | RFail | REps => RFail
  | RChar c' => if Ascii.eqb c c' then REps else RFail
  | RRange lo hi => if in_range lo hi c then REps else RFail
  | RCat r1 r2 =>
      if nullable r1 then RAlt (RCat (deriv c r1) r2) (deriv c r2)
      else RCat (deriv c r1) r2
  | RAlt r1 r2 => RAlt (deriv c r1) (deriv c r2)
  | ROpt r1 => deriv c r1
  end.

(** [/^r$/.test(s)]: the whole of [s] is a word of [r]. *)
Fixpoint matches (r : regex) (s : string) : bool :=
  match s with
  | EmptyString => nullable r
  | String c rest => matches (deriv c r) rest
  end.

(** [/^([01]?[0-9]|2[0-3]):[0-5][0-9]$/] *)
Definition time_regex : regex :=
  RCat (RAlt (RCat (ROpt (RRange "0" "1")) (RRange "0" "9"))
             (RCat (RChar "2") (RRange "0" "3")))
       (RCat (RChar ":") (RCat (RRange "0" "5") (RRange "0" "9"))).

(* ===================================================================== *)
(** ** Dates *)
(* ===================================================================== *)

Definition digit_val (c : ascii) : option Z :=
  if in_range "0" "9" c then Some (Z.of_nat (nat_of_ascii c) - 48) else None.

Definition two_digits (a b : ascii) : option Z :=
  match digit_val a, digit_val b with
  | Some x, Some y => Some (10 * x + y)
  | _, _ => None
  end.

(** The [HH:mm:ss] time of the date-time string format, in milliseconds
    since midnight; [24:00:00] is the end of the day. *)
Definition iso_time (s : string) : option Z :=
  match list_ascii_of_string s with
  | [h1; h2; c1; m1; m2; c2; s1; s2] =>
      if Ascii.eqb c1 ":" && Ascii.eqb c2 ":" then
        match two_digits h1 h2, two_digits m1 m2, two_digits s1 s2 with
        | Some h, Some m, Some sec =>
            if Z.leb h 23 && Z.leb m 59 && Z.leb sec 59
               || Z.eqb h 24 && Z.eqb m 0 && Z.eqb sec 0
            then Some (((h * 60 + m) * 60 + sec) * 1000)
            else None
        | _, _, _ => None
        end
      else None
  | _ => None
  end.

Fixpoint strip_prefix (p s : string) : option string :=
  match p, s with
  | EmptyString, _ => Some s
  | String a p', String b s' => if Ascii.eqb a b then strip_prefix p' s' else None
  | String _ _, EmptyString => None
  end.

Section Dates.
Context `{Engine}.

(** Time value of [new Date(s)]; [None] is Invalid Date.  A date-time
    without offset is local time. *)
Definition Date_parse (s : string) : option Z :=
  match strip_prefix "1970-01-01T" s with
  | Some t =>
      match iso_time t with
      | Some ms => Some (ms - local_offset)
      | None => Date_parse_other s
      end
  | None => Date_parse_other s
  end.

(** [a <= b] on two dates: both are converted to their time values and
    a comparison with NaN is false. *)
Definition date_le (a b : option Z) : bool :=
  match a, b with
  | Some x, Some y => Z.leb x y
  | _, _ => false
  end.

End Dates.

(* ===================================================================== *)
(** ** Validation ([validateSchedule]) *)
(* ===================================================================== *)

Definition msg_class : string := "Kelas harus diisi dan harus 'XI A' atau 'XI B'".
Definition msg_day : string :=
  "Hari harus diisi dan harus Senin, Selasa, Rabu, Kamis, atau Jumat".
Definition msg_subject : string := "Mata pelajaran wajib diisi".
Definition msg_teacher : string := "Nama guru wajib diisi".
Definition msg_start : string := "Waktu mulai harus diisi dengan format HH:mm".
Definition msg_end : string := "Waktu selesai harus diisi dengan format HH:mm".
Definition msg_order : string := "Waktu selesai harus setelah waktu mulai".

Definition valid_classes : list string := ["XI A"; "XI B"].
Definition valid_days : list string := ["Senin"; "Selasa"; "Rabu"; "Kamis"; "Jumat"].

(** [errors.push(m)] under a condition. *)
Definition push_if (c : bool) (m : string) (errs : list string) : list string :=
  if c then errs ++ [m] else errs.

(** [re.test(v)]: the argument is converted to a string first. *)
Definition time_test (v : value) : bool := matches time_regex (toString v).

Section Validation.
Context `{Engine}.

(** [new Date(`1970-01-01T${v}:00`)] *)
Definition date_of_time (v : value) : option Z :=
  Date_parse ("1970-01-01T" ++ toString v ++ ":00").

Definition validateSchedule (h : heap) (schedule : value) : result (list string) :=
  let errs := [] in
  let* class := getProp h schedule "class" in
  let errs := push_if (negb (truthy class) || negb (includes valid_classes class))
                msg_class errs in
  let* day := getProp h schedule "day" in
  let errs := push_if (negb (truthy day) || negb (includes valid_days day))
                msg_day errs in
  let* subject := getProp h schedule "subject" in
  let errs := push_if (negb (truthy subject)) msg_subject errs in
  let* teacher := getProp h schedule "teacher" in
  let errs := push_if (negb (truthy teacher)) msg_teacher errs in
  let* startTime := getProp h schedule "startTime" in
  let errs := push_if (negb (truthy startTime) || negb (time_test startTime))
                msg_start errs in
  let* endTime := getProp h schedule "endTime" in
  let errs := push_if (negb (truthy endTime) || negb (time_test endTime))
                msg_end errs in
  let errs :=
    if truthy startTime && truthy endTime then
      let start := date_of_time startTime in
      let end_ := date_of_time endTime in
      push_if (date_le end_ start) msg_order errs
    else errs in
  Ok errs.

End Validation.

(* ===================================================================== *)
(** ** Remote round trips *)
(* ===================================================================== *)

Definition REPO : string := "klandestin-s/api-school.man3".
Definition FILEPATH : string := "jadwal.json".
Definition BRANCH : string := "main".

(** The object [updateGitHubFile] sends; [sha] is a key that may be
    absent. *)
Record Payload : Type := mkPayload {
  p_message : string;
  p_content : string;
  p_branch : string;
  p_sha : option value
}.

Record HttpRequest : Type := mkRequest {
  rq_path : string;
  rq_method : string;
  rq_authorization : string;
  rq_data : option Payload
}.

(** How a request ends: the [end] event of a response, or the [error]
    event of the request. *)
Inductive HttpOutcome : Type :=
  | HttpResponse (status : Z) (content_type : option string) (body : string)
  | NetworkError (msg : string).

(** A computation that performs remote requests and resumes with their
    outcome. *)
Inductive prog (A : Type) : Type :=
  | Ret (a : A)
  | Http (rq : HttpRequest) (k : HttpOutcome -> prog A).
Arguments Ret {A} a.
Arguments Http {A} rq k.

Fixpoint pbind {A B} (p : prog A) (f : A -> prog B) : prog B :=
  match p with
  | Ret a => f a
  | Http rq k => Http rq (fun o => pbind (k o) f)
  end.

(** The requests a computation sends when the outcomes are [outs], in
    order; a missing outcome stops it. *)
Fixpoint trace {A} (p : prog A) (outs : list HttpOutcome) : list HttpRequest :=
  match p with
  | Ret _ => []
  | Http rq k =>
      rq :: match outs with
            | [] => []
            | o :: rest => trace (k o) rest
            end
  end.

(** The result of a computation fed with [outs]. *)
Fixpoint run {A} (p : prog A) (outs : list HttpOutcome) : option A :=
  match p with
  | Ret a => Some a
  | Http _ k =>
      match outs with
      | [] => None
      | o :: rest => run (k o) rest
      end
  end.

Fixpoint str_includes (needle hay : string) : bool :=
  String.prefix needle hay
  || match hay with
     | EmptyString => false
     | String _ rest => str_includes needle rest
     end.

(** [body || "{}"] *)
Definition body_or_empty (body : string) : string :=
  if String.eqb body "" then "{}" else body.

Definition parse_error (details : value) : JsError :=
  mkError (VNum 500) (VStr "JSON parse error") details VUndefined.

Definition network_error (details : string) : JsError :=
  mkError (VNum 500) (VStr "Network error") (VStr details) VUndefined.

Definition no_heap : heap := ∅.

(* ===================================================================== *)
(** ** Requests and responses of the endpoint *)
(* ===================================================================== *)

(** What the handler reads of [req]: [req.method], [req.body] and
    [req.query.id]. *)
Record Request : Type := mkReq {
  method : string;
  body : value;
  query_id : value
}.

(** The values [Date.now()] and [Math.random().toString(36)] take when
    the handler asks for them. *)
Record Nondet : Type := mkNondet {
  now : Z;
  random36 : string
}.

(** The argument of [res.json], by shape; [BodyNone] is [res.end()]. *)
Inductive ResBody : Type :=
  | BodyNone
  | BodyList (schedules : value)
  | BodyError (error : value) (details : option value)
  | BodySuccess (message : string) (schedule : value).

(** The three CORS headers are set first thing on every path and are
    not repeated here. *)
Record Response : Type := mkRes {
  res_status : value;
  res_body : ResBody
}.

(** Heap-passing computations that can throw and wait for the remote. *)
Definition M (A : Type) : Type := heap -> prog (heap * result A).

Definition mret {A} (a : A) : M A := fun h => Ret (h, Ok a).

Definition mbind {A B} (m : M A) (f : A -> M B) : M B :=
  fun h =>
    pbind (m h) (fun hr =>
      match hr with
      | (h', Ok a) => f a h'
      | (h', Throw e) => Ret (h', Throw e)
      end).

(** A step that neither waits nor writes the heap. *)
Definition pure_step {A} (f : heap -> result A) : M A := fun h => Ret (h, f h).

(** An [await] of a promise that does not touch the heap. *)
Definition await {A} (p : prog (result A)) : M A :=
  fun h => pbind p (fun r => Ret (h, r)).

Notation "x <- m ;; k" := (mbind m (fun x => k))
  (at level 100, m at next level, right associativity).

Module Jadwal.
Section Client.
Context `{Engine}.

(** The two callbacks of [githubRequest] that settle the promise. *)
Definition settle (o : HttpOutcome) : result value :=
  match o with
  | NetworkError m => Throw (network_error m)
  | HttpResponse status _ body =>
      match JSON_parse (body_or_empty body) with
      | inr m => Throw (parse_error (VStr m))
      | inl json =>
          if Z.leb 200 status && Z.ltb status 300 then Ok json
          else
            match (let* m := getProp no_heap json "message" in
                   let* errs := getProp no_heap json "errors" in
                   Ok (m, errs)) with
            | Throw e => Throw (parse_error (message e))
            | Ok (m, errs) =>
                Throw (mkError (VNum status)
                         (js_or m (VStr ("GitHub API error: " ++ pretty status)))
                         VUndefined errs)
            end
      end
  end.

(** The [Authorization] header, [`token ${TOKEN}`]. *)
Definition auth : string := "token " ++ default "undefined" TOKEN.

Definition githubRequest (path method : string) (data : option Payload)
  : prog (result value) :=
  Http (mkRequest path method auth data) (fun o => Ret (settle o)).

(** The body of the [try] of [getCurrentSchedules] after the await. *)
Definition read_snapshot (fileData : value) : result (value * value) :=
  let* content := getProp no_heap fileData "content" in
  if negb (truthy content) then Ok (VArr [], VNull)
  else
    let* text := decode_content content in
    match JSON_parse text with
    | inr m => Throw (mkError VUndefined (VStr m) VUndefined VUndefined)
    | inl schedules =>
        let* sha := getProp no_heap fileData "sha" in
        Ok (schedules, sha)
    end.

Definition catch_not_found (r : result (value * value)) : result (value * value) :=
  match r with
  | Ok a => Ok a
  | Throw e =>
      if strict_eq (statusCode e) (VNum 404) then Ok (VArr [], VNull) else Throw e
  end.

Definition get_path : string :=
  "/repos/" ++ REPO ++ "/contents/" ++ FILEPATH ++ "?ref=" ++ BRANCH.

Definition put_path : string := "/repos/" ++ REPO ++ "/contents/" ++ FILEPATH.

Definition getCurrentSchedules : prog (result (value * value)) :=
  pbind (githubRequest get_path "GET" None)
        (fun r => Ret (catch_not_found (bind r read_snapshot))).

End Client.
Section Handler.
Context `{Engine}.

Definition generateScheduleId (nd : Nondet) : string :=
  "jadwal_" ++ pretty (now nd) ++ "_" ++ substring 2 9 (random36 nd).

(** [v.k = x].  The holder of the object is returned: a shared object
    is written in the heap, an unshared one is rebuilt; on a primitive
    the assignment is dropped (the only assignment of the program comes
    after validation, which no primitive and no array passes). *)
Definition assign (v : value) (k : string) (x : value) : M value :=
  fun h =>
    match v with
    | VUndefined | VNull => Ret (h, Throw (type_error (WriteOfNullish v k)))
    | VRef l => Ret (<[l := <[k := x]> (default ∅ (h !! l))]> h, Ok v)
    | VObj o => Ret (h, Ok (VObj (<[k := x]> o)))
    | _ => Ret (h, Ok v)
    end.

(** What [JSON.stringify] reads of a record: a shared object as it is
    in the heap at that moment. *)
Definition deref (h : heap) (v : value) : value :=
  match v with
  | VRef l => VObj (default ∅ (h !! l))
  | _ => v
  end.

Definition snapshot (h : heap) (v : value) : value :=
  match v with
  | VArr xs => VArr (map (deref h) xs)
  | _ => deref h v
  end.

(** The object literal [updatePayload] with its conditional [sha]. *)
Definition updatePayload (h : heap) (schedules : value) (message : string) (sha : value)
  : Payload :=
  mkPayload message (encode_content (snapshot h schedules)) BRANCH
    (if truthy sha then Some sha else None).

Definition updateGitHubFile (schedules : value) (message : string) (sha : value)
  : M value :=
  fun h => await (githubRequest put_path "PUT" (Some (updatePayload h schedules message sha))) h.

(** [[...schedules]]; a string spreads into its characters. *)
Definition spread (schedules : value) : result (list value) :=
  match schedules with
  | VArr xs => Ok xs
  | VStr s => Ok (map (fun c => VStr (String c EmptyString)) (list_ascii_of_string s))
  | _ => Throw (type_error (NotIterable schedules))
  end.

(** [xs.findIndex((s) => s.id === id)], counting from [i]. *)
Fixpoint findIndex_from (h : heap) (xs : list value) (id : value) (i : nat)
  : result (option nat) :=
  match xs with
  | [] => Ok None
  | s :: rest =>
      let* sid := getProp h s "id" in
      if strict_eq sid id then Ok (Some i) else findIndex_from h rest id (S i)
  end.

(** [schedules.findIndex(...)]: on [null] the read of the method throws,
    on any other value that is not an array the call of the missing
    method does. *)
Definition findIndex (h : heap) (schedules : value) (id : value)
  : result (list value * option nat) :=
  match schedules with
  | VArr xs => let* i := findIndex_from h xs id 0 in Ok (xs, i)
  | VUndefined | VNull => Throw (type_error (ReadOfNullish schedules "findIndex"))
  | _ => Throw (type_error (NotCallable schedules "schedules.findIndex"))
  end.

Definition commit_message (h : heap) (verb : string) (schedule : value)
  : result string :=
  let* subject := getProp h schedule "subject" in
  let* class := getProp h schedule "class" in
  Ok (verb ++ " jadwal: " ++ toString subject ++ " untuk " ++ toString class).

Definition bad_request (error : string) : Response :=
  mkRes (VNum 400) (BodyError (VStr error) None).

Definition not_found : Response :=
  mkRes (VNum 404) (BodyError (VStr "Jadwal tidak ditemukan") None).

Definition do_get : M Response :=
  snap <- await getCurrentSchedules ;;
  let '(schedules, _) := snap in
  mret (mkRes (VNum 200) (BodyList (js_or schedules (VArr [])))).

Definition do_post (req : Request) (nd : Nondet) : M Response :=
  let newSchedule := body req in
  errs <- pure_step (fun h => validateSchedule h newSchedule) ;;
  if (0 <? length errs)%nat then mret (bad_request (join ", " errs))
  else
    newSchedule <- assign newSchedule "id" (VStr (generateScheduleId nd)) ;;
    snap <- await getCurrentSchedules ;;
    let '(schedules, sha) := snap in
    xs <- pure_step (fun _ => spread schedules) ;;
    let updatedSchedules := (xs ++ [newSchedule])%list in
    msg <- pure_step (fun h => commit_message h "Tambah" newSchedule) ;;
    _ <- updateGitHubFile (VArr updatedSchedules) msg sha ;;
    mret (mkRes (VNum 201) (BodySuccess "Jadwal berhasil ditambahkan" newSchedule)).

Definition do_put (req : Request) : M Response :=
  let updatedSchedule := body req in
  id <- pure_step (fun h => getProp h updatedSchedule "id") ;;
  if negb (truthy id) then mret (bad_request "ID jadwal wajib diisi")
  else
    errs <- pure_step (fun h => validateSchedule h updatedSchedule) ;;
    if (0 <? length errs)%nat then mret (bad_request (join ", " errs))
    else
      snap <- await getCurrentSchedules ;;
      let '(schedules, sha) := snap in
      found <- pure_step (fun h => findIndex h schedules id) ;;
      let '(xs, scheduleIndex) := found in
      match scheduleIndex with
      | None => mret not_found
      | Some i =>
          let xs := <[i := updatedSchedule]> xs in
          msg <- pure_step (fun h => commit_message h "Update" updatedSchedule) ;;
          _ <- updateGitHubFile (VArr xs) msg sha ;;
          mret (mkRes (VNum 200)
                  (BodySuccess "Jadwal berhasil diperbarui" updatedSchedule))
      end.

Definition do_delete (req : Request) : M Response :=
  let id := query_id req in
  if negb (truthy id) then mret (bad_request "ID jadwal wajib diisi")
  else
    snap <- await getCurrentSchedules ;;
    let '(schedules, sha) := snap in
    found <- pure_step (fun h => findIndex h schedules id) ;;
    let '(xs, scheduleIndex) := found in
    match scheduleIndex with
    | None => mret not_found
    | Some i =>
        let deletedSchedule := default VUndefined (xs !! i) in
        let xs := delete i xs in
        msg <- pure_step (fun h => commit_message h "Hapus" deletedSchedule) ;;
        _ <- updateGitHubFile (VArr xs) msg sha ;;
        mret (mkRes (VNum 200)
                (BodySuccess "Jadwal berhasil dihapus" deletedSchedule))
    end.

(** The [catch] of the handler. *)
Definition on_error (e : JsError) : Response :=
  mkRes (js_or (statusCode e) (VNum 500))
        (BodyError (js_or (message e) (VStr "Internal server error"))
           (Some (js_or (details e)
                    (js_or (errors e) (VStr "No additional details"))))).

Definition has_token : bool :=
  match TOKEN with
  | Some t => negb (String.eqb t "")
  | None => false
  end.

Definition route (req : Request) (nd : Nondet) : M Response :=
  if String.eqb (method req) "GET" then do_get
  else if String.eqb (method req) "POST" then do_post req nd
  else if String.eqb (method req) "PUT" then do_put req
  else if String.eqb (method req) "DELETE" then do_delete req
  else mret (mkRes (VNum 405)
               (BodyError
                  (VStr "Method not allowed. Supported methods: GET, POST, PUT, DELETE")
                  None)).

(** How the [try] block ends: with the response it returned, or in the
    [catch] with the response made from what was thrown. *)
Definition respond (hr : heap * result Response) : heap * Response :=
  match hr with
  | (h, Ok res) => (h, res)
  | (h, Throw e) => (h, on_error e)
  end.

(** [module.exports]: the response and the heap it leaves. *)
Definition handler (req : Request) (nd : Nondet) (h : heap) : prog (heap * Response) :=
  if String.eqb (method req) "OPTIONS" then Ret (h, mkRes (VNum 200) BodyNone)
  else if negb has_token then
    Ret (h, mkRes (VNum 500)
              (BodyError
                 (VStr "Missing GitHub token. Set GITHUB_TOKEN environment variable.")
                 None))
  else pbind (route req nd h) (fun hr => Ret (respond hr)).

(** The two requests an operation can send, and what a read gives once
    its request has ended with [o]. *)
Definition get_request : HttpRequest := mkRequest get_path "GET" auth None.

Definition put_request (p : Payload) : HttpRequest :=
  mkRequest put_path "PUT" auth (Some p).

Definition read_result (o : HttpOutcome) : result (value * value) :=
  catch_not_found (bind (settle o) read_snapshot).

(** [s.id === id] for a record that is not nullish. *)
Definition has_id (h : heap) (id : value) (s : value) : bool :=
  strict_eq (field h s "id") id.

(** What an operation sends: nothing, the read alone, or the read and
    then one write whose [sha] is the one the read returned. *)
Definition traced (p : prog (heap * result Response)) : Prop :=
  forall outs,
    trace p outs = []
    \/ trace p outs = [get_request]
    \/ exists o outs' schedules sha payload,
         outs = o :: outs'
         /\ read_result o = Ok (schedules, sha)
         /\ trace p outs = [get_request; put_request payload]
         /\ p_sha payload = (if truthy sha then Some sha else None).

(** A continuation of the read that ends, or writes once with the token
    of the snapshot and then ends. *)
Definition writes_once (k : value * value -> M Response) (h : heap) : Prop :=
  forall snap,
    (exists a, k snap h = Ret a)
    \/ exists v msg (k' : value -> M Response),
         k snap h = mbind (updateGitHubFile v msg (snd snap)) k' h
         /\ forall x h', exists a, k' x h' = Ret a.

End Handler.
End Jadwal.

(** The client of [src/unnamed/part_000]: the response is decoded
    only when its content type says JSON, whatever the status. *)
Module Part000.
Section Client.
Context `{Engine}.

Definition settle (o : HttpOutcome) : result value :=
  match o with
  | NetworkError m => Throw (network_error m)
  | HttpResponse _ content_type body =>
      match content_type with
      | None =>
          Throw (parse_error (VStr (fault_text (ReadOfNullish VUndefined "includes"))))
      | Some t =>
          if str_includes "application/json" t then
            match JSON_parse (body_or_empty body) with
            | inr m => Throw (parse_error (VStr m))
            | inl json => Ok json
            end
          else Ok (VStr body)
      end
  end.

Definition githubRequest (path method : string) (data : option Payload)
  : prog (result value) :=
  Http (mkRequest path method Jadwal.auth data) (fun o => Ret (settle o)).

(** [typeof fileData === "string"] comes first. *)
Definition read_snapshot (fileData : value) : result (value * value) :=
  match fileData with
  | VStr _ => Ok (VArr [], VNull)
  | _ => Jadwal.read_snapshot fileData
  end.

Definition getCurrentSchedules : prog (result (value * value)) :=
  pbind (githubRequest Jadwal.get_path "GET" None)
        (fun r => Ret (Jadwal.catch_not_found (bind r read_snapshot))).

End Client.
End Part000.

(** ** Sample data *)

(** A stored record. *)
Definition sample_record (id : string) (subject : string) : value :=
  VObj (<["id" := VStr id]> (<["class" := VStr "XI A"]> (<["day" := VStr "Senin"]>
       (<["subject" := VStr subject]> (<["teacher" := VStr "Bu Sri"]>
       (<["startTime" := VStr "07:00"]> (<["endTime" := VStr "08:30"]> ∅))))))).

Definition obj_of (l : list (string * value)) : gmap string value := list_to_map l.

(** A platform to evaluate the definitions on.  The JSON codec is a
    table over the few documents the examples use, each named by a word
    that stands for its text; any other text is refused the way V8
    refuses it. *)
Definition sample_engine : Engine := {|
  fault_text := fun f =>
    match f with
    | ReadOfNullish v p =>
        "Cannot read properties of " ++ toString v ++ " (reading '" ++ p ++ "')"
    | WriteOfNullish v p =>
        "Cannot set properties of " ++ toString v ++ " (setting '" ++ p ++ "')"
    | NotIterable v =>
        match v with
        | VUndefined | VNull =>
            toString v
            ++ " is not iterable (cannot read property Symbol(Symbol.iterator))"
        | _ => "schedules is not iterable"
        end
    | NotCallable _ n => n ++ " is not a function"
    end;
  JSON_parse := fun s =>
    if String.eqb s "{}" then inl (VObj ∅)
    else if String.eqb s "null" then inl VNull
    else if String.eqb s "NOTFOUND" then
      inl (VObj (obj_of [("message", VStr "Not Found")]))
    else if String.eqb s "FILE2" then
      inl (VObj (obj_of [("content", VStr "B2"); ("sha", VStr "abc123")]))
    else if String.eqb s "FILE1" then
      inl (VObj (obj_of [("content", VStr "B1"); ("sha", VStr "def456")]))
    else if String.eqb s "TWO" then
      inl (VArr [sample_record "a" "Fisika"; sample_record "b" "Kimia"])
    else if String.eqb s "ONE" then
      inl (VArr [sample_record "b" "Kimia"])
    else inr ("Unexpected token " ++ substring 0 1 s ++ " in JSON at position 0");
  encode_content := fun v =>
    match v with
    | VArr [_] => "B1"
    | VArr [_; _] => "B2"
    | _ => "B"
    end;
  decode_content := fun c =>
    match c with
    | VStr c =>
        Ok (if String.eqb c "B2" then "TWO" else if String.eqb c "B1" then "ONE" else c)
    | _ =>
        Throw (mkError VUndefined (VStr "The first argument must be of type string")
                 VUndefined VUndefined)
    end;
  TOKEN := Some "ghp_sample";
  Date_parse_other := fun _ => None;
  local_offset := 0
|}.

(* ===================================================================== *)
(** ** The validation rules one by one *)
(* ===================================================================== *)

Inductive rule : Type :=
  | RuleClass | RuleDay | RuleSubject | RuleTeacher
  | RuleStart | RuleEnd | RuleOrder.

Definition all_rules : list rule :=
  [RuleClass; RuleDay; RuleSubject; RuleTeacher; RuleStart; RuleEnd; RuleOrder].

Definition rule_message (r : rule) : string :=
  match r with
  | RuleClass => msg_class
  | RuleDay => msg_day
  | RuleSubject => msg_subject
  | RuleTeacher => msg_teacher
  | RuleStart => msg_start
  | RuleEnd => msg_end
  | RuleOrder => msg_order
  end.

(** The condition of each of the seven [if]s of [validateSchedule],
    taken by itself. *)
Definition violates `{Engine} (h : heap) (s : value) (r : rule) : bool :=
  match r with
  | RuleClass =>
      negb (truthy (field h s "class"))
      || negb (includes valid_classes (field h s "class"))
  | RuleDay =>
      negb (truthy (field h s "day")) || negb (includes valid_days (field h s "day"))
  | RuleSubject => negb (truthy (field h s "subject"))
  | RuleTeacher => negb (truthy (field h s "teacher"))
  | RuleStart =>
      negb (truthy (field h s "startTime")) || negb (time_test (field h s "startTime"))
  | RuleEnd =>
      negb (truthy (field h s "endTime")) || negb (time_test (field h s "endTime"))
  | RuleOrder =>
      truthy (field h s "startTime") && truthy (field h s "endTime")
      && date_le (date_of_time (field h s "endTime"))
                 (date_of_time (field h s "startTime"))
  end.

Definition is_digit (c : ascii) : bool := in_range "0" "9" c.

(** Following the spec's words: [HH:MM] with two-digit hours 00-23 and
    minutes 00-59. *)
Definition spec_time_format (s : string) : bool :=
  match list_ascii_of_string s with
  | [h1; h2; c; m1; m2] =>
      (in_range "0" "1" h1 && is_digit h2 || Ascii.eqb h1 "2" && in_range "0" "3" h2)
      && Ascii.eqb c ":" && in_range "0" "5" m1 && is_digit m2
  | _ => false
  end.

(** [H:MM]: a single hour digit, minutes 00-59. *)
Definition short_time_format (s : string) : bool :=
  match list_ascii_of_string s with
  | [h; c; m1; m2] =>
      is_digit h && Ascii.eqb c ":" && in_range "0" "5" m1 && is_digit m2
  | _ => false
  end.

(** Minutes since midnight of a time written [HH:MM]. *)
Definition minutes_of (s : string) : Z :=
  match list_ascii_of_string s with
  | [h1; h2; _; m1; m2] =>
      60 * default 0 (two_digits h1 h2) + default 0 (two_digits m1 m2)
  | _ => 0
  end.

(* ===================================================================== *)
(** ** The validation rules in the spec's words *)
(* ===================================================================== *)








(** A record that has just the two times. *)
Definition times_only (startTime endTime : string) : value :=
  VObj (obj_of [("startTime", VStr startTime); ("endTime", VStr endTime)]).

(** The requests that are refused on their input alone. *)
Inductive rejected `{Engine} (h : heap) (req : Request) : string -> Prop :=
  | RejectedCreate (errs : list string) :
      method req = "POST" ->
      validateSchedule h (body req) = Ok errs -> errs <> [] ->
      rejected h req (join ", " errs)
  | RejectedUpdateNoId :
      method req = "PUT" ->
      nullish (body req) = false -> truthy (field h (body req) "id") = false ->
      rejected h req "ID jadwal wajib diisi"
  | RejectedUpdate (errs : list string) :
      method req = "PUT" ->
      truthy (field h (body req) "id") = true ->
      validateSchedule h (body req) = Ok errs -> errs <> [] ->
      rejected h req (join ", " errs).

(** How the store answers for a blob that was never written: with
    not-found, or with a document that has no content. *)
Inductive absent_answer `{Engine} : HttpOutcome -> Prop :=
  | AnswerNotFound (content_type : option string) (body : string) (json : value) :
      JSON_parse (body_or_empty body) = inl json -> nullish json = false ->
      absent_answer (HttpResponse 404 content_type body)
  | AnswerNoContent (status : Z) (content_type : option string) (body : string)
      (json : value) :
      (200 <= status < 300)%Z ->
      JSON_parse (body_or_empty body) = inl json -> nullish json = false ->
      truthy (field no_heap json "content") = false ->
      absent_answer (HttpResponse status content_type body).

(** The same for the client of [part_000], which goes by the content
    type and not by the status. *)
Inductive absent_answer_000 `{Engine} : HttpOutcome -> Prop :=
  | AnswerJson000 (status : Z) (t : string) (body : string) (json : value) :
      str_includes "application/json" t = true ->
      JSON_parse (body_or_empty body) = inl json -> nullish json = false ->
      truthy (field no_heap json "content") = false ->
      absent_answer_000 (HttpResponse status (Some t) body)
  | AnswerText000 (status : Z) (t : string) (body : string) :
      str_includes "application/json" t = false ->
      absent_answer_000 (HttpResponse status (Some t) body).

(** The collection cut at the first record whose id is [id]. *)
Fixpoint split_at_id (h : heap) (id : value) (xs : list value)
  : option (list value * value * list value) :=
  match xs with
  | [] => None
  | s :: rest =>
      if Jadwal.has_id h id s then Some ([], s, rest)
      else match split_at_id h id rest with
           | Some (pre, old, post) => Some (s :: pre, old, post)
           | None => None
           end
  end.

(** Sample data. *)
Definition new_record : gmap string value :=
  obj_of [("class", VStr "XI A"); ("day", VStr "Senin"); ("subject", VStr "Biologi");
          ("teacher", VStr "Pak Budi"); ("startTime", VStr "09:00");
          ("endTime", VStr "10:00"); ("room", VStr "Lab 2")].

Definition sample_heap : heap := {[ 1%positive := new_record ]}.

Definition sample_nondet : Nondet := mkNondet 1762000000000 "0.4fzyo82mvyrxx".

Definition json_type : option string := Some "application/json; charset=utf-8".

Definition ok_put : HttpOutcome := HttpResponse 200 json_type "{}".
Definition bad_gateway : HttpOutcome :=
  HttpResponse 502 (Some "text/html") "<html>Bad Gateway</html>".

Definition create_req : Request := mkReq "POST" (VRef 1%positive) VUndefined.
Definition delete_req : Request := mkReq "DELETE" VUndefined (VStr "a").


(** A regular expression with no word at all. *)
Fixpoint dead (r : regex) : bool :=
  match r with
  | RFail => true
  | RCat r1 r2 => dead r1 || dead r2
  | RAlt r1 r2 => dead r1 && dead r2
  | _ => false
  end.

(* ===================================================================== *)
(** ** Answers of the store for a blob that exists *)
(* ===================================================================== *)

(** A 2xx answer whose document holds a content that decodes to
    [schedules], and the token [sha]. *)
Inductive present_answer `{Engine} : HttpOutcome -> value -> value -> Prop :=
  | AnswerContent (status : Z) (content_type : option string) (body text : string)
      (doc schedules : value) :
      (200 <= status < 300)%Z ->
      JSON_parse (body_or_empty body) = inl doc -> nullish doc = false ->
      truthy (field no_heap doc "content") = true ->
      decode_content (field no_heap doc "content") = Ok text ->
      JSON_parse text = inl schedules ->
      present_answer (HttpResponse status content_type body) schedules
        (field no_heap doc "sha").

(** The answer of the store to a read that follows a write of the
    content [c]: a 2xx document that holds [c]. *)
Inductive holds_content `{Engine} : HttpOutcome -> string -> value -> Prop :=
  | HoldsContent (status : Z) (content_type : option string) (body : string)
      (doc : value) (c : string) :
      (200 <= status < 300)%Z ->
      JSON_parse (body_or_empty body) = inl doc -> nullish doc = false ->
      field no_heap doc "content" = VStr c ->
      holds_content (HttpResponse status content_type body) c (field no_heap doc "sha").


(** An answer the client of [jadwal.js] rejects: a status outside 2xx
    with a JSON document. *)
Inductive error_answer `{Engine} : HttpOutcome -> Z -> value -> Prop :=
  | AnswerError (status : Z) (content_type : option string) (body : string)
      (doc : value) :
      (status < 200 \/ 300 <= status)%Z ->
      JSON_parse (body_or_empty body) = inl doc -> nullish doc = false ->
      error_answer (HttpResponse status content_type body) status doc.

(* ===================================================================== *)
(** ** The discipline of an operation *)
(* ===================================================================== *)

Section Discipline.
Context `{Engine}.

(** A continuation of the read that ends, or writes once with the token
    of the snapshot and answers [res] when the write is accepted. *)
Definition ends_or_writes (k : value * value -> M Response) (h : heap) : Prop :=
  forall snap,
    (exists a, k snap h = Ret a)
    \/ exists v msg res,
         k snap h
         = mbind (Jadwal.updateGitHubFile v msg (snd snap)) (fun _ => mret res) h.

(** What an operation does with the outcome [o] of its read: when the
    read fails it sends nothing more and ends with the error of the read;
    when it sends a write, it ends with the error of the write or with
    its own response. *)
Definition disciplined (p : prog (heap * result Response)) : Prop :=
  forall o outs,
    (exists a, p = Ret a)
    \/ (trace p (o :: outs) = [Jadwal.get_request]
        /\ exists a, run p (o :: outs) = Some a
             /\ forall e, Jadwal.read_result o = Throw e -> snd a = Throw e)
    \/ (exists schedules sha payload,
          Jadwal.read_result o = Ok (schedules, sha)
          /\ trace p (o :: outs) = [Jadwal.get_request; Jadwal.put_request payload]
          /\ forall o2 outs', outs = o2 :: outs' ->
               exists h' res,
                 run p (o :: outs)
                 = Some (h', match Jadwal.settle o2 with
                             | Ok _ => Ok res
                             | Throw e => Throw e
                             end)).

End Discipline.

(* ===================================================================== *)
(** ** The handler of [part_000] *)
(* ===================================================================== *)

(** The handler of [src/unnamed/part_000] goes through its own client,
    and decodes a request body that arrives as a string; validation, the
    id generator and the rest are those of [jadwal.js]. *)
Module Part000Api.
Section Handler.
Context `{Engine}.

Definition updateGitHubFile (schedules : value) (message : string) (sha : value)
  : M value :=
  fun h =>
    await (Part000.githubRequest Jadwal.put_path "PUT"
             (Some (Jadwal.updatePayload h schedules message sha))) h.

Definition do_get : M Response :=
  snap <- await Part000.getCurrentSchedules ;;
  let '(schedules, _) := snap in
  mret (mkRes (VNum 200) (BodyList (js_or schedules (VArr [])))).

Definition do_post (requestBody : value) (nd : Nondet) : M Response :=
  let newSchedule := requestBody in
  errs <- pure_step (fun h => validateSchedule h newSchedule) ;;
  if (0 <? length errs)%nat then mret (Jadwal.bad_request (join ", " errs))
  else
    newSchedule <- Jadwal.assign newSchedule "id" (VStr (Jadwal.generateScheduleId nd)) ;;
    snap <- await Part000.getCurrentSchedules ;;
    let '(schedules, sha) := snap in
    xs <- pure_step (fun _ => Jadwal.spread schedules) ;;
    let updatedSchedules := (xs ++ [newSchedule])%list in
    msg <- pure_step (fun h => Jadwal.commit_message h "Tambah" newSchedule) ;;
    _ <- updateGitHubFile (VArr updatedSchedules) msg sha ;;
    mret (mkRes (VNum 201) (BodySuccess "Jadwal berhasil ditambahkan" newSchedule)).

Definition do_put (requestBody : value) : M Response :=
  let updatedSchedule := requestBody in
  id <- pure_step (fun h => getProp h updatedSchedule "id") ;;
  if negb (truthy id) then mret (Jadwal.bad_request "ID jadwal wajib diisi")
  else
    errs <- pure_step (fun h => validateSchedule h updatedSchedule) ;;
    if (0 <? length errs)%nat then mret (Jadwal.bad_request (join ", " errs))
    else
      snap <- await Part000.getCurrentSchedules ;;
      let '(schedules, sha) := snap in
      found <- pure_step (fun h => Jadwal.findIndex h schedules id) ;;
      let '(xs, scheduleIndex) := found in
      match scheduleIndex with
      | None => mret Jadwal.not_found
      | Some i =>
          let xs := <[i := updatedSchedule]> xs in
          msg <- pure_step (fun h => Jadwal.commit_message h "Update" updatedSchedule) ;;
          _ <- updateGitHubFile (VArr xs) msg sha ;;
          mret (mkRes (VNum 200)
                  (BodySuccess "Jadwal berhasil diperbarui" updatedSchedule))
      end.

Definition do_delete (req : Request) : M Response :=
  let id := query_id req in
  if negb (truthy id) then mret (Jadwal.bad_request "ID jadwal wajib diisi")
  else
    snap <- await Part000.getCurrentSchedules ;;
    let '(schedules, sha) := snap in
    found <- pure_step (fun h => Jadwal.findIndex h schedules id) ;;
    let '(xs, scheduleIndex) := found in
    match scheduleIndex with
    | None => mret Jadwal.not_found
    | Some i =>
        let deletedSchedule := default VUndefined (xs !! i) in
        let xs := delete i xs in
        msg <- pure_step (fun h => Jadwal.commit_message h "Hapus" deletedSchedule) ;;
        _ <- updateGitHubFile (VArr xs) msg sha ;;
        mret (mkRes (VNum 200)
                (BodySuccess "Jadwal berhasil dihapus" deletedSchedule))
    end.

(** [requestBody]: for POST and PUT, a body that is a string is parsed,
    any other body is taken as it is; [None] is the [catch] around the
    parse.  For the other methods it stays [undefined]. *)
Definition requestBody (req : Request) : option value :=
  if String.eqb (method req) "POST" || String.eqb (method req) "PUT" then
    match body req with
    | VStr s =>
        match JSON_parse s with
        | inl v => Some v
        | inr _ => None
        end
    | b => Some b
    end
  else Some VUndefined.

Definition route (req : Request) (nd : Nondet) : M Response :=
  if String.eqb (method req) "GET" then do_get
  else
    match requestBody req with
    | None => mret (Jadwal.bad_request "Invalid JSON format")
    | Some requestBody =>
        if String.eqb (method req) "POST" then do_post requestBody nd
        else if String.eqb (method req) "PUT" then do_put requestBody
        else if String.eqb (method req) "DELETE" then do_delete req
        else mret (mkRes (VNum 405)
                     (BodyError
                        (VStr "Method not allowed. Supported methods: GET, POST, PUT, DELETE")
                        None))
    end.

Definition handler (req : Request) (nd : Nondet) (h : heap) : prog (heap * Response) :=
  if String.eqb (method req) "OPTIONS" then Ret (h, mkRes (VNum 200) BodyNone)
  else if negb Jadwal.has_token then
    Ret (h, mkRes (VNum 500)
              (BodyError
                 (VStr "Missing GitHub token. Set GITHUB_TOKEN environment variable.")
                 None))
  else pbind (route req nd h) (fun hr => Ret (Jadwal.respond hr)).

(** What a read gives once its request has ended with [o]. *)
Definition read_result (o : HttpOutcome) : result (value * value) :=
  Jadwal.catch_not_found (bind (Part000.settle o) Part000.read_snapshot).

End Handler.
End Part000Api.

(* ===================================================================== *)
(** ** A store to evaluate whole exchanges on *)
(* ===================================================================== *)

Definition created_id : string := "jadwal_1762000000000_4fzyo82mv".

Definition created_record : value := VObj (<["id" := VStr created_id]> new_record).

Definition two_records : list value :=
  [sample_record "a" "Fisika"; sample_record "b" "Kimia"].

(** The text that stands for a record in an encoded collection. *)
Definition summary (v : value) : string :=
  toString (field no_heap v "id") ++ "/" ++ toString (field no_heap v "subject").

(** The document the store returns for a blob of content [c]. *)
Definition file_doc (c : string) : value :=
  VObj (obj_of [("content", VStr c); ("sha", VStr ("sha-" ++ c))]).

(** A platform whose content codec writes a collection as the list of
    its summaries and reads the few collections of the examples back, and
    for which [FILE:c] is the document of a blob of content [c]. *)
Definition store_engine : Engine := {|
  fault_text := @fault_text sample_engine;
  JSON_parse := fun s =>
    match strip_prefix "FILE:" s with
    | Some c => inl (file_doc c)
    | None =>
        if String.eqb s "[a/Fisika,b/Kimia]" then inl (VArr two_records)
        else if String.eqb s "[a/Fisika,b/Kimia,jadwal_1762000000000_4fzyo82mv/Biologi]"
        then inl (VArr (two_records ++ [created_record]))
        else if String.eqb s "[a/Matematika,b/Kimia]"
        then inl (VArr [sample_record "a" "Matematika"; sample_record "b" "Kimia"])
        else if String.eqb s "[b/Kimia]" then inl (VArr [sample_record "b" "Kimia"])
        else if String.eqb s "CONFLICT"
        then inl (VObj (obj_of [("message", VStr "jadwal.json does not match")]))
        else if String.eqb s "UNAUTHORIZED"
        then inl (VObj (obj_of [("message", VStr "Bad credentials")]))
        else if String.eqb s "BODY" then inl (VObj new_record)
        else @JSON_parse sample_engine s
    end;
  encode_content := fun v =>
    match v with
    | VArr xs => "[" ++ join "," (map summary xs) ++ "]"
    | _ => toString v
    end;
  decode_content := fun c =>
    match c with
    | VStr c => Ok c
    | _ =>
        Throw (mkError VUndefined (VStr "The first argument must be of type string")
                 VUndefined VUndefined)
    end;
  TOKEN := Some "ghp_sample";
  Date_parse_other := fun _ => None;
  local_offset := 0
|}.

(** The answer of the store for a blob of content [c]. *)
Definition file_of (c : string) : HttpOutcome := HttpResponse 200 json_type ("FILE:" ++ c).

Definition list_req : Request := mkReq "GET" VUndefined VUndefined.
Definition conflict : HttpOutcome := HttpResponse 409 json_type "CONFLICT".
Definition unauthorized : HttpOutcome := HttpResponse 401 json_type "UNAUTHORIZED".
Definition error_page : HttpOutcome := HttpResponse 502 (Some "text/html") "<html>".

Definition stray_update_req : Request :=
  mkReq "PUT" (sample_record "zz" "Matematika") VUndefined.

(* ===================================================================== *)
(** * Properties *)
(* ===================================================================== *)

Section ValidationFacts.
Context `{Engine}.

Lemma getProp_field (h : heap) (s : value) (k : string) :
  nullish s = false -> getProp h s k = Ok (field h s k).
Proof. destruct s; simpl; intros Hn; try discriminate; reflexivity. Qed.

Lemma validateSchedule_rules (h : heap) (s : value) :
  nullish s = false ->
  validateSchedule h s = Ok (map rule_message (List.filter (violates h s) all_rules)).
Proof.
  intros Hn. unfold validateSchedule.
  rewrite !(getProp_field h s _ Hn). cbn [bind].
  unfold all_rules. cbn [List.filter violates].
  destruct (negb (truthy (field h s "class")) || _);
  destruct (negb (truthy (field h s "day")) || _);
  destruct (negb (truthy (field h s "subject")));
  destruct (negb (truthy (field h s "teacher")));
  destruct (negb (truthy (field h s "startTime")) || _);
  destruct (negb (truthy (field h s "endTime")) || _);
  destruct (truthy (field h s "startTime") && truthy (field h s "endTime"));
  cbn [andb]; try destruct (date_le _ _); reflexivity.
Qed.

Lemma rule_message_inj (r1 r2 : rule) : rule_message r1 = rule_message r2 -> r1 = r2.
Proof. destruct r1, r2; intros Heq; try reflexivity; discriminate Heq. Qed.

Lemma all_rules_complete (r : rule) : In r all_rules.
Proof. destruct r; simpl; tauto. Qed.

Lemma Ok_inj {A : Type} (a b : A) : Ok a = Ok b -> a = b.
Proof. intros Heq. congruence. Qed.

Lemma validateSchedule_mem (h : heap) (s : value) (errs : list string) :
  nullish s = false ->
  validateSchedule h s = Ok errs ->
  forall r, violates h s r = true <-> In (rule_message r) errs.
Proof.
  intros Hn Hv r. rewrite (validateSchedule_rules h s Hn) in Hv.
  apply Ok_inj in Hv. subst errs. rewrite in_map_iff. split.
  - intros Hr. exists r. split; [reflexivity|].
    apply filter_In. split; [apply all_rules_complete | exact Hr].
  - intros (r' & Hmsg & Hin). apply rule_message_inj in Hmsg. subst r'.
    apply filter_In in Hin. tauto.
Qed.

End ValidationFacts.

(** Every check failing at once: no class, day, subject or teacher, and
    both times [24:00]. *)
Example validateSchedule_all_seven :
  @validateSchedule sample_engine ∅ (times_only "24:00" "24:00")
  = Ok [msg_class; msg_day; msg_subject; msg_teacher; msg_start; msg_end; msg_order].
Proof. vm_compute. reflexivity. Qed.

(* ===================================================================== *)
(** ** The time format *)
(* ===================================================================== *)

Lemma dead_not_nullable r : dead r = true -> nullable r = false.
Proof.
  induction r; simpl; intros Hd; try discriminate; try reflexivity.
  - apply orb_true_iff in Hd as [Hd|Hd]; [rewrite IHr1 by exact Hd|rewrite IHr2 by exact Hd]; 
    [reflexivity | apply andb_false_r].
  - apply andb_true_iff in Hd as [H1 H2]. rewrite IHr1, IHr2 by assumption. reflexivity.
Qed.

Lemma dead_deriv c r : dead r = true -> dead (deriv c r) = true.
Proof.
  induction r; simpl; intros Hd; try discriminate; try reflexivity.
  - apply orb_true_iff in Hd as [Hd|Hd].
    + rewrite (dead_not_nullable r1 Hd). simpl. rewrite IHr1 by exact Hd. reflexivity.
    + destruct (nullable r1); simpl; rewrite ?IHr2 by exact Hd; rewrite Hd, ?orb_true_r; reflexivity.
  - apply andb_true_iff in Hd as [H1 H2]. rewrite IHr1, IHr2 by assumption. reflexivity.
Qed.

Lemma matches_dead s : forall r, dead r = true -> matches r s = false.
Proof.
  induction s as [|c s IH]; intros r Hd; simpl.
  - apply dead_not_nullable, Hd.
  - apply IH, dead_deriv, Hd.
Qed.

Ltac stage c :=
  cbn -[in_range Ascii.eqb];
  repeat match goal with
         | |- context [in_range ?a ?b c] => destruct (in_range a b c)
         | |- context [Ascii.eqb c ?b] => destruct (Ascii.eqb c b)
         end;
  cbn -[in_range Ascii.eqb];
  try rewrite matches_dead by reflexivity;
  try reflexivity.

Lemma time_regex_forms (s : string) :
  matches time_regex s = spec_time_format s || short_time_format s.
Proof.
  unfold spec_time_format, short_time_format, is_digit.
  destruct s as [|c1 s]; [reflexivity|].
  destruct s as [|c2 s]; [stage c1|].
  destruct s as [|c3 s]; [stage c1; stage c2|].
  destruct s as [|c4 s]; [stage c1; stage c2; stage c3|].
  destruct s as [|c5 s]; [stage c1; stage c2; stage c3; stage c4|].
  destruct s as [|c6 s]; [stage c1; stage c2; stage c3; stage c4; stage c5|].
  stage c1; stage c2; stage c3; stage c4; stage c5; stage c6.
Qed.

Lemma In_push_if (c : bool) (m x : string) (errs : list string) :
  In x (push_if c m errs) <-> In x errs \/ (c = true /\ x = m).
Proof.
  unfold push_if. destruct c.
  - rewrite in_app_iff. simpl. intuition congruence.
  - intuition congruence.
Qed.

Section TimeFormatFacts.
Context `{Engine}.

Lemma violates_start_string (h : heap) (s : value) (st : string) :
  field h s "startTime" = VStr st ->
  violates h s RuleStart = negb (spec_time_format st || short_time_format st).
Proof.
  intros Hf. cbn [violates]. rewrite Hf. unfold time_test. cbn [toString truthy].
  rewrite time_regex_forms.
  destruct (String.eqb_spec st "") as [->|Hne]; reflexivity.
Qed.

Lemma violates_end_string (h : heap) (s : value) (en : string) :
  field h s "endTime" = VStr en ->
  violates h s RuleEnd = negb (spec_time_format en || short_time_format en).
Proof.
  intros Hf. cbn [violates]. rewrite Hf. unfold time_test. cbn [toString truthy].
  rewrite time_regex_forms.
  destruct (String.eqb_spec en "") as [->|Hne]; reflexivity.
Qed.

(** C3 (as amended). A [startTime] string, and likewise an [endTime]
    string, is accepted exactly when it is [HH:MM] with hours 00-23 and
    minutes 00-59, or [H:MM] with a single hour digit 0-9 and minutes
    00-59; every other string puts the time-format message of its field
    in the result. *)
Theorem time_format_accepted (h : heap) (s : value) (errs : list string) :
  nullish s = false ->
  validateSchedule h s = Ok errs ->
  (forall st, field h s "startTime" = VStr st ->
     (In msg_start errs <-> spec_time_format st || short_time_format st = false))
  /\ (forall en, field h s "endTime" = VStr en ->
     (In msg_end errs <-> spec_time_format en || short_time_format en = false)).
Proof.
  intros Hn Hv. pose proof (validateSchedule_mem h s errs Hn Hv) as Hiff.
  split.
  - intros st Hf. rewrite <- (Hiff RuleStart), (violates_start_string h s st Hf).
    apply negb_true_iff.
  - intros en Hf. rewrite <- (Hiff RuleEnd), (violates_end_string h s en Hf).
    apply negb_true_iff.
Qed.

End TimeFormatFacts.

(** The record checked below: [9:30] is accepted as a start time although
    its hour has one digit; [25:00] is refused as an end time. *)
Lemma time_format_accepted_witness :
  nullish (times_only "9:30" "25:00") = false
  /\ @validateSchedule sample_engine ∅ (times_only "9:30" "25:00")
     = Ok [msg_class; msg_day; msg_subject; msg_teacher; msg_end]
  /\ (forall st, field ∅ (times_only "9:30" "25:00") "startTime" = VStr st ->
       (In msg_start [msg_class; msg_day; msg_subject; msg_teacher; msg_end]
        <-> spec_time_format st || short_time_format st = false))
  /\ (forall en, field ∅ (times_only "9:30" "25:00") "endTime" = VStr en ->
       (In msg_end [msg_class; msg_day; msg_subject; msg_teacher; msg_end]
        <-> spec_time_format en || short_time_format en = false)).
Proof.
  split; [reflexivity|]. split; [vm_compute; reflexivity|].
  apply (@time_format_accepted sample_engine ∅ (times_only "9:30" "25:00"));
    [reflexivity | vm_compute; reflexivity].
Defined.

(** C3 as stated fails: [9:30] is not of the two-digit form, and
    validation raises no start-time message for it. *)
Lemma time_format_two_digit_counterexample :
  spec_time_format "9:30" = false
  /\ exists errs,
       @validateSchedule sample_engine ∅ (times_only "9:30" "10:00") = Ok errs
       /\ ~ In msg_start errs.
Proof.
  split; [reflexivity|]. eexists. split; [vm_compute; reflexivity|].
  cbv. intuition discriminate.
Qed.

(* ===================================================================== *)
(** ** The order of the two times *)
(* ===================================================================== *)

Lemma digit_val_range (lo hi c : ascii) :
  in_range lo hi c = true ->
  (48 <= nat_of_ascii lo)%nat -> (nat_of_ascii hi <= 57)%nat ->
  exists d, digit_val c = Some d
            /\ (Z.of_nat (nat_of_ascii lo) - 48 <= d <= Z.of_nat (nat_of_ascii hi) - 48)%Z.
Proof.
  unfold digit_val, in_range. intros Hr Hlo Hhi.
  apply andb_true_iff in Hr as [H1 H2].
  apply Nat.leb_le in H1, H2.
  replace (nat_of_ascii "0") with 48%nat by reflexivity.
  replace (nat_of_ascii "9") with 57%nat by reflexivity.
  destruct (Nat.leb_spec 48 (nat_of_ascii c)); [|lia].
  destruct (Nat.leb_spec (nat_of_ascii c) 57); [|lia].
  cbn [andb]. eexists. split; [reflexivity|]. lia.
Qed.

Lemma string_of_five (s : string) (a b c d e : ascii) :
  list_ascii_of_string s = [a; b; c; d; e] ->
  s = String a (String b (String c (String d (String e EmptyString)))).
Proof.
  intros Hl. rewrite <- (string_of_list_ascii_of_string s), Hl. reflexivity.
Qed.

(** What the format of the spec gives: the five characters and the
    values of hour and minute. *)
Lemma spec_time_format_inv (s : string) :
  spec_time_format s = true ->
  exists h1 h2 m1 m2 hh mm,
    s = String h1 (String h2 (String ":" (String m1 (String m2 EmptyString))))
    /\ two_digits h1 h2 = Some hh /\ two_digits m1 m2 = Some mm
    /\ (0 <= hh <= 23)%Z /\ (0 <= mm <= 59)%Z.
Proof.
  unfold spec_time_format, is_digit.
  destruct (list_ascii_of_string s) as [|h1 [|h2 [|c [|m1 [|m2 [|x l]]]]]] eqn:Hl;
    try discriminate.
  intros Hf. apply string_of_five in Hl. subst s.
  apply andb_true_iff in Hf as [Hf Hm2].
  apply andb_true_iff in Hf as [Hf Hm1].
  apply andb_true_iff in Hf as [Hh Hc].
  apply Ascii.eqb_eq in Hc. subst c.
  destruct (digit_val_range _ _ _ Hm1) as (d1 & Hd1 & Hb1); [cbv; lia..|].
  destruct (digit_val_range _ _ _ Hm2) as (d2 & Hd2 & Hb2); [cbv; lia..|].
  change (Z.of_nat (nat_of_ascii "0") - 48) with 0 in *.
  change (Z.of_nat (nat_of_ascii "5") - 48) with 5 in *.
  change (Z.of_nat (nat_of_ascii "9") - 48) with 9 in *.
  apply orb_true_iff in Hh as [Hh|Hh]; apply andb_true_iff in Hh as [Hh1 Hh2].
  - destruct (digit_val_range _ _ _ Hh1) as (e1 & He1 & Hc1); [cbv; lia..|].
    destruct (digit_val_range _ _ _ Hh2) as (e2 & He2 & Hc2); [cbv; lia..|].
    change (Z.of_nat (nat_of_ascii "0") - 48) with 0 in *.
    change (Z.of_nat (nat_of_ascii "1") - 48) with 1 in *.
    change (Z.of_nat (nat_of_ascii "9") - 48) with 9 in *.
    exists h1, h2, m1, m2, (10 * e1 + e2), (10 * d1 + d2).
    unfold two_digits. rewrite He1, He2, Hd1, Hd2.
    repeat split; lia.
  - apply Ascii.eqb_eq in Hh1. subst h1.
    destruct (digit_val_range _ _ _ Hh2) as (e2 & He2 & Hc2); [cbv; lia..|].
    change (Z.of_nat (nat_of_ascii "0") - 48) with 0 in *.
    change (Z.of_nat (nat_of_ascii "3") - 48) with 3 in *.
    exists "2"%char, h2, m1, m2, (20 + e2), (10 * d1 + d2).
    unfold two_digits. rewrite He2, Hd1, Hd2.
    change (digit_val "2") with (Some 2).
    repeat split; try lia.
Qed.

Section TimeOrderFacts.
Context `{Engine}.

Lemma date_of_time_spec (s : string) :
  spec_time_format s = true ->
  date_of_time (VStr s) = Some (minutes_of s * 60000 - local_offset).
Proof.
  intros Hf. destruct (spec_time_format_inv s Hf)
    as (h1 & h2 & m1 & m2 & hh & mm & -> & Hh & Hm & Hbh & Hbm).
  unfold date_of_time, Date_parse, minutes_of.
  cbn [toString]. 
  change (strip_prefix "1970-01-01T"
            ("1970-01-01T" ++ String h1 (String h2 (String ":" (String m1 (String m2 "")))) ++ ":00"))
    with (Some (String h1 (String h2 (String ":" (String m1 (String m2 ":00")))))).
  unfold iso_time. cbn [list_ascii_of_string]. rewrite Hh, Hm.
  change (two_digits "0" "0") with (Some 0).
  change (Ascii.eqb ":" ":") with true. cbn [andb default].
  destruct (Z.leb_spec hh 23); [|lia].
  destruct (Z.leb_spec mm 59); [|lia].
  cbn [andb orb Z.leb]. change (Z.leb 0 59) with true. cbn [andb orb]. unfold id. f_equal. lia.
Qed.

Lemma spec_time_format_truthy (s : string) :
  spec_time_format s = true -> truthy (VStr s) = true.
Proof. destruct s; [discriminate | reflexivity]. Qed.

(** C4 (as amended). When [startTime] and [endTime] are both strings of
    the form [HH:MM] with two-digit hours 00-23 and minutes 00-59, the
    time-ordering message is in the result exactly when [endTime] is not
    strictly later than [startTime] (equal times are refused); when
    either time is missing or empty, no time-ordering message is added. *)
Theorem time_order_checked (h : heap) (s : value) (errs : list string) :
  nullish s = false ->
  validateSchedule h s = Ok errs ->
  (forall st en,
     field h s "startTime" = VStr st -> field h s "endTime" = VStr en ->
     spec_time_format st = true -> spec_time_format en = true ->
     (In msg_order errs <-> (minutes_of en <= minutes_of st)%Z))
  /\ (truthy (field h s "startTime") = false \/ truthy (field h s "endTime") = false ->
      ~ In msg_order errs).
Proof.
  intros Hn Hv. pose proof (validateSchedule_mem h s errs Hn Hv RuleOrder) as Hiff.
  cbn [rule_message violates] in Hiff. split.
  - intros st en Hst Hen Hfs Hfe. rewrite <- Hiff, Hst, Hen.
    rewrite !spec_time_format_truthy, !date_of_time_spec by assumption.
    cbn [andb date_le]. rewrite Z.leb_le. lia.
  - intros Hfalsy Hin. apply Hiff in Hin.
    destruct Hfalsy as [Hf|Hf]; rewrite Hf in Hin;
      [|rewrite andb_false_r in Hin]; discriminate Hin.
Qed.

End TimeOrderFacts.

(** Start [10:00], end [09:00]: the order message is raised. *)
Lemma time_order_checked_witness :
  nullish (times_only "10:00" "09:00") = false
  /\ @validateSchedule sample_engine ∅ (times_only "10:00" "09:00")
     = Ok [msg_class; msg_day; msg_subject; msg_teacher; msg_order]
  /\ (forall st en,
       field ∅ (times_only "10:00" "09:00") "startTime" = VStr st ->
       field ∅ (times_only "10:00" "09:00") "endTime" = VStr en ->
       spec_time_format st = true -> spec_time_format en = true ->
       (In msg_order [msg_class; msg_day; msg_subject; msg_teacher; msg_order]
        <-> (minutes_of en <= minutes_of st)%Z))
  /\ (truthy (field ∅ (times_only "10:00" "09:00") "startTime") = false
      \/ truthy (field ∅ (times_only "10:00" "09:00") "endTime") = false ->
      ~ In msg_order [msg_class; msg_day; msg_subject; msg_teacher; msg_order]).
Proof.
  split; [reflexivity|]. split; [vm_compute; reflexivity|].
  apply (@time_order_checked sample_engine ∅ (times_only "10:00" "09:00"));
    [reflexivity | vm_compute; reflexivity].
Defined.

(** C4 as stated fails: [24:00] is refused as a start time by the format
    check, and the time-ordering message is added all the same, [24:00]
    being the end of the day for [Date]. *)
Lemma time_order_invalid_counterexample :
  time_test (VStr "24:00") = false
  /\ spec_time_format "24:00" = false
  /\ @validateSchedule sample_engine ∅ (times_only "24:00" "10:00")
     = Ok [msg_class; msg_day; msg_subject; msg_teacher; msg_start; msg_order].
Proof. repeat split; vm_compute; reflexivity. Qed.

Section ValidationRuleFacts.
Context `{Engine}.








End ValidationRuleFacts.



(* ===================================================================== *)
(** ** The handler *)
(* ===================================================================== *)

Import Jadwal.

Section HandlerFacts.
Context `{Engine}.

Lemma pure_step_bind {A B} (f : heap -> result A) (k : A -> M B) (h : heap) :
  mbind (pure_step f) k h
  = match f h with
    | Ok a => k a h
    | Throw e => Ret (h, Throw e)
    end.
Proof. unfold mbind, pure_step. cbn [pbind]. destruct (f h); reflexivity. Qed.

Lemma await_read {A} (k : value * value -> M A) (h : heap) :
  mbind (await getCurrentSchedules) k h
  = Http get_request
      (fun o => match read_result o with
                | Ok snap => k snap h
                | Throw e => Ret (h, Throw e)
                end).
Proof. reflexivity. Qed.

Lemma trace_write {A} (v : value) (msg : string) (sha : value) (k : value -> M A)
    (h : heap) (outs : list HttpOutcome) :
  (forall x h', exists a, k x h' = Ret a) ->
  trace (mbind (updateGitHubFile v msg sha) k h) outs
  = [put_request (updatePayload h v msg sha)].
Proof.
  intros Hk. unfold mbind, updateGitHubFile, await, githubRequest.
  cbn [pbind trace]. destruct outs as [|o outs]; [reflexivity|].
  destruct (settle o) as [x|e]; [|reflexivity].
  destruct (Hk x h) as [a ->]. reflexivity.
Qed.

Lemma run_write {A} (v : value) (msg : string) (sha : value) (a : A)
    (h : heap) (o : HttpOutcome) (outs : list HttpOutcome) :
  run (mbind (updateGitHubFile v msg sha) (fun _ => mret a) h) (o :: outs)
  = Some (h, match settle o with
             | Ok _ => Ok a
             | Throw e => Throw e
             end).
Proof.
  unfold mbind, updateGitHubFile, await, githubRequest, mret.
  cbn [pbind run]. destruct (settle o); reflexivity.
Qed.

Lemma handler_route (req : Request) (nd : Nondet) (h : heap) :
  has_token = true -> method req <> "OPTIONS" ->
  handler req nd h = pbind (route req nd h) (fun hr => Ret (respond hr)).
Proof.
  intros Htok Hm. unfold handler. rewrite Htok.
  destruct (String.eqb_spec (method req) "OPTIONS"); [contradiction|].
  reflexivity.
Qed.

Lemma trace_respond (p : prog (heap * result Response)) (outs : list HttpOutcome) :
  trace (pbind p (fun hr => Ret (respond hr))) outs = trace p outs.
Proof.
  revert outs. induction p as [a|rq k IH]; intros outs; [reflexivity|].
  cbn [pbind trace]. destruct outs as [|o outs]; [reflexivity|].
  rewrite IH. reflexivity.
Qed.

Lemma run_respond (p : prog (heap * result Response)) (outs : list HttpOutcome) :
  run (pbind p (fun hr => Ret (respond hr))) outs = respond <$> run p outs.
Proof.
  revert outs. induction p as [a|rq k IH]; intros outs; [reflexivity|].
  cbn [pbind run]. destruct outs as [|o outs]; [reflexivity|]. apply IH.
Qed.

Lemma handler_get (req : Request) (nd : Nondet) (h : heap) :
  has_token = true -> method req = "GET" ->
  handler req nd h = pbind (do_get h) (fun hr => Ret (respond hr)).
Proof.
  intros Htok Hm. rewrite handler_route by congruence.
  unfold route. rewrite Hm. reflexivity.
Qed.

Lemma handler_post (req : Request) (nd : Nondet) (h : heap) :
  has_token = true -> method req = "POST" ->
  handler req nd h = pbind (do_post req nd h) (fun hr => Ret (respond hr)).
Proof.
  intros Htok Hm. rewrite handler_route by congruence.
  unfold route. rewrite Hm. reflexivity.
Qed.

Lemma handler_put (req : Request) (nd : Nondet) (h : heap) :
  has_token = true -> method req = "PUT" ->
  handler req nd h = pbind (do_put req h) (fun hr => Ret (respond hr)).
Proof.
  intros Htok Hm. rewrite handler_route by congruence.
  unfold route. rewrite Hm. reflexivity.
Qed.

Lemma handler_delete (req : Request) (nd : Nondet) (h : heap) :
  has_token = true -> method req = "DELETE" ->
  handler req nd h = pbind (do_delete req h) (fun hr => Ret (respond hr)).
Proof.
  intros Htok Hm. rewrite handler_route by congruence.
  unfold route. rewrite Hm. reflexivity.
Qed.

Lemma validateSchedule_Ok_record (h : heap) (s : value) (errs : list string) :
  validateSchedule h s = Ok errs -> nullish s = false.
Proof. destruct s; try reflexivity; discriminate. Qed.

Lemma do_post_invalid (req : Request) (nd : Nondet) (h : heap) (errs : list string) :
  validateSchedule h (body req) = Ok errs -> errs <> [] ->
  do_post req nd h = Ret (h, Ok (bad_request (join ", " errs))).
Proof.
  intros Hv Hne. unfold do_post. rewrite pure_step_bind, Hv.
  destruct errs; [congruence|]. reflexivity.
Qed.

Lemma do_put_no_id (req : Request) (h : heap) :
  nullish (body req) = false -> truthy (field h (body req) "id") = false ->
  do_put req h = Ret (h, Ok (bad_request "ID jadwal wajib diisi")).
Proof.
  intros Hn Hid. unfold do_put. rewrite pure_step_bind, (getProp_field _ _ _ Hn), Hid.
  reflexivity.
Qed.

Lemma do_put_invalid (req : Request) (h : heap) (errs : list string) :
  nullish (body req) = false -> truthy (field h (body req) "id") = true ->
  validateSchedule h (body req) = Ok errs -> errs <> [] ->
  do_put req h = Ret (h, Ok (bad_request (join ", " errs))).
Proof.
  intros Hn Hid Hv Hne. unfold do_put.
  rewrite pure_step_bind, (getProp_field _ _ _ Hn), Hid. cbn [negb].
  rewrite pure_step_bind, Hv. destruct errs; [congruence|]. reflexivity.
Qed.

(** C5. A create or update whose input fails validation, and an update
    whose input has no id, is answered with the error (status 400) without
    any request to the blob store: the handler ends at once, whatever the
    remote would answer, so nothing is read or written there, and the
    heap is left as it was. *)
Theorem invalid_input_no_io (req : Request) (nd : Nondet) (h : heap) (msg : string) :
  has_token = true ->
  rejected h req msg ->
  handler req nd h = Ret (h, bad_request msg)
  /\ forall outs, trace (handler req nd h) outs = [].
Proof.
  intros Htok Hrej. destruct Hrej as [errs Hm Hv Hne|Hm Hn Hid|errs Hm Hid Hv Hne].
  - rewrite (handler_post req nd h Htok Hm).
    rewrite (do_post_invalid req nd h errs Hv Hne). split; reflexivity.
  - rewrite (handler_put req nd h Htok Hm).
    rewrite (do_put_no_id req h Hn Hid). split; reflexivity.
  - rewrite (handler_put req nd h Htok Hm).
    rewrite (do_put_invalid req h errs (validateSchedule_Ok_record _ _ _ Hv) Hid Hv Hne).
    split; reflexivity.
Qed.

Lemma read_absent (o : HttpOutcome) :
  absent_answer o ->
  read_result o = Ok (VArr [], VNull)
  /\ forall req nd h,
       has_token = true -> method req = "GET" ->
       run (handler req nd h) [o] = Some (h, mkRes (VNum 200) (BodyList (VArr []))).
Proof.
  intros Habs.
  assert (Hread : read_result o = Ok (VArr [], VNull)).
  { unfold read_result.
    destruct Habs as [ct body json Hp Hn|status ct body json Hs Hp Hn Hc];
      cbn [settle]; rewrite Hp.
    - cbn [Z.leb Z.ltb Z.compare Pos.compare Pos.compare_cont andb].
      rewrite !(getProp_field _ _ _ Hn). reflexivity.
    - destruct (Z.leb_spec 200 status); [|lia].
      destruct (Z.ltb_spec status 300); [|lia].
      cbn [andb bind]. unfold read_snapshot.
      rewrite (getProp_field _ _ _ Hn). cbn [bind]. rewrite Hc. reflexivity. }
  split; [exact Hread|].
  intros req nd h Htok Hm. rewrite (handler_get req nd h Htok Hm), run_respond.
  unfold do_get. rewrite await_read. cbn [run]. rewrite Hread. reflexivity.
Qed.

(** C6. A read of a blob that was never written (the store answers
    not-found, or answers with a document without content) gives the
    empty collection and no version token, as a result and not as an
    error; the list request then answers 200 with the empty list.  This
    holds for the client of [jadwal.js] and for that of [part_000]. *)
Theorem read_absent_blob_empty (o : HttpOutcome) :
  (absent_answer o ->
   run Jadwal.getCurrentSchedules [o] = Some (Ok (VArr [], VNull))
   /\ forall req nd h,
        has_token = true -> method req = "GET" ->
        run (handler req nd h) [o] = Some (h, mkRes (VNum 200) (BodyList (VArr []))))
  /\ (absent_answer_000 o ->
      run Part000.getCurrentSchedules [o] = Some (Ok (VArr [], VNull))).
Proof.
  split.
  - intros Habs. destruct (read_absent o Habs) as [Hread Hget]. split; [|exact Hget].
    change (run Jadwal.getCurrentSchedules [o]) with (Some (read_result o)).
    rewrite Hread. reflexivity.
  - intros Habs.
    change (run Part000.getCurrentSchedules [o])
      with (Some (catch_not_found (bind (Part000.settle o) Part000.read_snapshot))).
    destruct Habs as [status t body json Ht Hp Hn Hc|status t body Ht];
      cbn [Part000.settle]; rewrite Ht; [rewrite Hp|]; cbn [bind]; [|reflexivity].
    unfold Part000.read_snapshot, read_snapshot.
    rewrite (getProp_field _ _ _ Hn). cbn [bind]. rewrite Hc.
    destruct json; reflexivity.
Qed.

End HandlerFacts.

Section TokenFacts.
Context `{Engine}.

Lemma traced_ret (a : heap * result Response) : traced (Ret a).
Proof. intros outs. left. reflexivity. Qed.

Lemma traced_read (k : value * value -> M Response) (h : heap) :
  writes_once k h -> traced (mbind (await getCurrentSchedules) k h).
Proof.
  intros Hk outs. rewrite await_read. cbn [trace].
  destruct outs as [|o outs]; [right; left; reflexivity|].
  destruct (read_result o) as [[schedules sha]|e] eqn:Hr; [|right; left; reflexivity].
  destruct (Hk (schedules, sha)) as [[a Ha]|(v & msg & k' & Hk' & Hret)].
  - rewrite Ha. right. left. reflexivity.
  - rewrite Hk', (trace_write v msg _ k' h outs Hret). right. right.
    exists o, outs, schedules, sha, (updatePayload h v msg sha).
    split; [reflexivity|]. split; [exact Hr|]. split; reflexivity.
Qed.

Lemma traced_get (h : heap) : traced (do_get h).
Proof.
  apply traced_read. intros [schedules sha]. left. eexists. reflexivity.
Qed.

Lemma traced_post (req : Request) (nd : Nondet) (h : heap) : traced (do_post req nd h).
Proof.
  unfold do_post. rewrite pure_step_bind.
  destruct (validateSchedule h (body req)) as [errs|e]; [|apply traced_ret].
  destruct (0 <? length errs)%nat; [apply traced_ret|].
  unfold mbind at 1.
  destruct (body req) as [| |b|n|s|xs|o|l]; cbn [assign pbind];
    try apply traced_ret; apply traced_read; intros [schedules sha];
    rewrite pure_step_bind; (destruct (spread schedules) as [ys|e]; [|left; eexists; reflexivity]);
    rewrite pure_step_bind;
    (match goal with |- context [commit_message ?a ?b ?c] =>
       destruct (commit_message a b c) as [msg|e]; [|left; eexists; reflexivity] end);
    right; do 3 eexists; (split; [reflexivity|]); intros x h'; eexists; reflexivity.
Qed.

Lemma traced_put (req : Request) (h : heap) : traced (do_put req h).
Proof.
  unfold do_put. rewrite pure_step_bind.
  destruct (getProp h (body req) "id") as [id|e]; [|apply traced_ret].
  destruct (negb (truthy id)); [apply traced_ret|].
  rewrite pure_step_bind.
  destruct (validateSchedule h (body req)) as [errs|e]; [|apply traced_ret].
  destruct (0 <? length errs)%nat; [apply traced_ret|].
  apply traced_read. intros [schedules sha].
  rewrite pure_step_bind.
  destruct (findIndex h schedules id) as [[xs [i|]]|e];
    [|left; eexists; reflexivity..].
  rewrite pure_step_bind.
  destruct (commit_message h "Update" (body req)) as [msg|e];
    [|left; eexists; reflexivity].
  right. do 3 eexists. split; [reflexivity|]. intros x h'. eexists. reflexivity.
Qed.

Lemma traced_delete (req : Request) (h : heap) : traced (do_delete req h).
Proof.
  unfold do_delete.
  destruct (negb (truthy (query_id req))); [apply traced_ret|].
  apply traced_read. intros [schedules sha].
  rewrite pure_step_bind.
  destruct (findIndex h schedules (query_id req)) as [[xs [i|]]|e];
    [|left; eexists; reflexivity..].
  rewrite pure_step_bind.
  match goal with |- context [commit_message ?a ?b ?c] =>
    destruct (commit_message a b c) as [msg|e]; [|left; eexists; reflexivity] end.
  right. do 3 eexists. split; [reflexivity|]. intros x h'. eexists. reflexivity.
Qed.

Lemma traced_route (req : Request) (nd : Nondet) (h : heap) : traced (route req nd h).
Proof.
  unfold route.
  destruct (String.eqb (method req) "GET"); [apply traced_get|].
  destruct (String.eqb (method req) "POST"); [apply traced_post|].
  destruct (String.eqb (method req) "PUT"); [apply traced_put|].
  destruct (String.eqb (method req) "DELETE"); [apply traced_delete|].
  apply traced_ret.
Qed.

Lemma handler_trace (req : Request) (nd : Nondet) (h : heap) (outs : list HttpOutcome) :
  trace (handler req nd h) outs = []
  \/ trace (handler req nd h) outs = trace (route req nd h) outs.
Proof.
  unfold handler.
  destruct (String.eqb (method req) "OPTIONS"); [left; reflexivity|].
  destruct (negb has_token); [left; reflexivity|].
  right. apply trace_respond.
Qed.

(** C9 (as amended). When the body of a response cannot be parsed, the
    client of [jadwal.js] does not crash: the promise is rejected with the
    error [{statusCode: 500, message: "JSON parse error", details}] in
    which [details] is the message of the parser, not the raw body, and
    the handler answers from that error.  The client of [part_000] does
    the same when the content type of the response is JSON; with another
    content type it resolves with the raw body as a string. *)
Theorem undecodable_response_rejected (status : Z) (content_type : option string)
    (body msg : string) :
  JSON_parse (body_or_empty body) = inr msg ->
  Jadwal.settle (HttpResponse status content_type body) = Throw (parse_error (VStr msg))
  /\ (forall req nd h,
        has_token = true -> method req = "GET" ->
        run (handler req nd h) [HttpResponse status content_type body]
        = Some (h, on_error (parse_error (VStr msg))))
  /\ (forall t, content_type = Some t -> str_includes "application/json" t = true ->
        Part000.settle (HttpResponse status content_type body)
        = Throw (parse_error (VStr msg)))
  /\ (forall t, content_type = Some t -> str_includes "application/json" t = false ->
        Part000.settle (HttpResponse status content_type body) = Ok (VStr body)).
Proof.
  intros Hp.
  assert (Hs : Jadwal.settle (HttpResponse status content_type body)
               = Throw (parse_error (VStr msg))).
  { cbn [settle]. rewrite Hp. reflexivity. }
  split; [exact Hs|]. split; [|split].
  - intros req nd h Htok Hm. rewrite (handler_get req nd h Htok Hm), run_respond.
    unfold do_get. rewrite await_read. cbn [run]. unfold read_result.
    rewrite Hs. reflexivity.
  - intros t -> Ht. cbn [Part000.settle]. rewrite Ht, Hp. reflexivity.
  - intros t -> Ht. cbn [Part000.settle]. rewrite Ht. reflexivity.
Qed.

End TokenFacts.

(* ===================================================================== *)
(** ** Create, update and delete on the collection *)
(* ===================================================================== *)

Section CollectionFacts.
Context `{Engine}.


Lemma split_at_id_None (h : heap) (id : value) (xs : list value) :
  split_at_id h id xs = None <-> Forall (fun s => has_id h id s = false) xs.
Proof.
  induction xs as [|s rest IH]; cbn [split_at_id].
  - split; [constructor | reflexivity].
  - destruct (has_id h id s) eqn:Hid.
    + split; [discriminate|]. intros Hall. inversion Hall; congruence.
    + destruct (split_at_id h id rest) as [[[pre old] post]|].
      * split; [discriminate|]. intros Hall. inversion Hall; subst.
        apply IH in H3. discriminate.
      * split; [|reflexivity]. intros _. constructor; [exact Hid | apply IH; reflexivity].
Qed.

Lemma findIndex_from_split (h : heap) (id : value) (xs : list value) (n : nat) :
  Forall (fun s => nullish s = false) xs ->
  findIndex_from h xs id n
  = Ok match split_at_id h id xs with
       | Some (pre, _, _) => Some (n + length pre)%nat
       | None => None
       end.
Proof.
  intros Hall. revert n. induction Hall as [|s rest Hs Hrest IH]; intros n; [reflexivity|].
  cbn [findIndex_from split_at_id]. rewrite (getProp_field _ _ _ Hs). cbn [bind].
  fold (has_id h id s). destruct (has_id h id s).
  - cbn [length]. rewrite Nat.add_0_r. reflexivity.
  - rewrite IH. destruct (split_at_id h id rest) as [[[pre old] post]|]; [|reflexivity].
    cbn [length]. do 2 f_equal. lia.
Qed.






Lemma findIndex_array (h : heap) (id : value) (xs : list value) :
  Forall (fun s => nullish s = false) xs ->
  findIndex h (VArr xs) id
  = Ok (xs, match split_at_id h id xs with
            | Some (pre, _, _) => Some (length pre)
            | None => None
            end).
Proof. intros Hall. cbn [findIndex]. rewrite (findIndex_from_split h id xs 0 Hall). reflexivity. Qed.


Lemma read_then_end (k : value * value -> M Response) (h : heap)
    (o : HttpOutcome) (outs : list HttpOutcome) (snap : value * value)
    (r : heap * result Response) :
  read_result o = Ok snap ->
  k snap h = Ret r ->
  trace (mbind (await getCurrentSchedules) k h) (o :: outs) = [get_request]
  /\ run (mbind (await getCurrentSchedules) k h) (o :: outs) = Some r.
Proof.
  intros Hr Hk. rewrite await_read. cbn [trace run]. rewrite Hr, Hk. split; reflexivity.
Qed.










End CollectionFacts.

Section WriteFacts.
Context `{Engine}.





End WriteFacts.


(** An update that carries an id and the class [XI C]. *)
Lemma invalid_input_no_io_witness :
  let req := mkReq "PUT" (VObj (obj_of [("id", VStr "a"); ("class", VStr "XI C")]))
               VUndefined in
  let errs := [msg_class; msg_day; msg_subject; msg_teacher; msg_start; msg_end] in
  @handler sample_engine req sample_nondet sample_heap
  = Ret (sample_heap, bad_request (join ", " errs))
  /\ forall outs, trace (@handler sample_engine req sample_nondet sample_heap) outs = [].
Proof.
  intros req errs.
  refine (@invalid_input_no_io sample_engine req sample_nondet sample_heap _ eq_refl
            (@RejectedUpdate sample_engine sample_heap req errs eq_refl eq_refl _ _)).
  - vm_compute. reflexivity.
  - discriminate.
Defined.

(** GitHub's answer for a path that does not exist. *)
Lemma read_absent_blob_empty_witness :
  @absent_answer sample_engine (HttpResponse 404 json_type "NOTFOUND")
  /\ @absent_answer_000 sample_engine (HttpResponse 404 json_type "NOTFOUND")
  /\ run (@Jadwal.getCurrentSchedules sample_engine) [HttpResponse 404 json_type "NOTFOUND"]
     = Some (Ok (VArr [], VNull))
  /\ run (@Part000.getCurrentSchedules sample_engine) [HttpResponse 404 json_type "NOTFOUND"]
     = Some (Ok (VArr [], VNull)).
Proof.
  assert (Ha : @absent_answer sample_engine (HttpResponse 404 json_type "NOTFOUND")).
  { apply (@AnswerNotFound sample_engine json_type "NOTFOUND"
             (VObj (obj_of [("message", VStr "Not Found")]))); reflexivity. }
  assert (Hb : @absent_answer_000 sample_engine (HttpResponse 404 json_type "NOTFOUND")).
  { apply (@AnswerJson000 sample_engine 404 "application/json; charset=utf-8" "NOTFOUND"
             (VObj (obj_of [("message", VStr "Not Found")]))); reflexivity. }
  destruct (@read_absent_blob_empty sample_engine (HttpResponse 404 json_type "NOTFOUND"))
    as [H1 H2].
  split; [exact Ha|]. split; [exact Hb|]. split; [exact (proj1 (H1 Ha)) | exact (H2 Hb)].
Defined.

(** A gateway page where JSON was expected. *)
Lemma undecodable_response_rejected_witness :
  @Jadwal.settle sample_engine bad_gateway
  = Throw (parse_error (VStr "Unexpected token < in JSON at position 0"))
  /\ (forall req nd h,
        @has_token sample_engine = true -> method req = "GET" ->
        run (@handler sample_engine req nd h) [bad_gateway]
        = Some (h, on_error (parse_error (VStr "Unexpected token < in JSON at position 0"))))
  /\ (forall t, Some "text/html" = Some t -> str_includes "application/json" t = true ->
        @Part000.settle sample_engine bad_gateway
        = Throw (parse_error (VStr "Unexpected token < in JSON at position 0")))
  /\ (forall t, Some "text/html" = Some t -> str_includes "application/json" t = false ->
        @Part000.settle sample_engine bad_gateway = Ok (VStr "<html>Bad Gateway</html>")).
Proof.
  apply (@undecodable_response_rejected sample_engine 502 (Some "text/html")
           "<html>Bad Gateway</html>" "Unexpected token < in JSON at position 0").
  reflexivity.
Defined.

(** C9 as stated fails: the error made for an undecodable body holds the
    status 500, the text [JSON parse error] and the parser's message; the
    raw body is in none of its fields.  The client of [part_000] raises
    no error at all for this response. *)
Lemma undecodable_response_body_counterexample :
  exists e,
    @Jadwal.settle sample_engine bad_gateway = Throw e
    /\ e = mkError (VNum 500) (VStr "JSON parse error")
             (VStr "Unexpected token < in JSON at position 0") VUndefined
    /\ statusCode e <> VStr "<html>Bad Gateway</html>"
    /\ message e <> VStr "<html>Bad Gateway</html>"
    /\ details e <> VStr "<html>Bad Gateway</html>"
    /\ errors e <> VStr "<html>Bad Gateway</html>"
    /\ @Part000.settle sample_engine bad_gateway = Ok (VStr "<html>Bad Gateway</html>").
Proof.
  eexists. split; [vm_compute; reflexivity|]. split; [reflexivity|].
  repeat split; try discriminate. 
Qed.



Example create_keeps_extra_field :
  (<["id" := VStr (generateScheduleId sample_nondet)]> new_record) !! "room"
  = Some (VStr "Lab 2")
  /\ generateScheduleId sample_nondet = "jadwal_1762000000000_4fzyo82mv".
Proof. split; vm_compute; reflexivity. Qed.


(** With an engine that takes [1970-01-01T9:30:00] for an invalid date,
    as V8 does, two times with one-digit hours pass the format check and
    are not compared at all. *)
Example one_digit_hours_not_compared :
  @validateSchedule sample_engine ∅ (times_only "9:30" "8:00")
  = Ok [msg_class; msg_day; msg_subject; msg_teacher].
Proof. vm_compute. reflexivity. Qed.

(* ===================================================================== *)
(** * Further properties of the client, the handler and validation *)
(* ===================================================================== *)

Section ClientFacts.
Context `{Engine}.

Lemma settle_2xx (status : Z) (content_type : option string) (body : string)
    (v : value) :
  (200 <= status < 300)%Z ->
  JSON_parse (body_or_empty body) = inl v ->
  settle (HttpResponse status content_type body) = Ok v.
Proof.
  intros Hs Hp. cbn [settle]. rewrite Hp.
  destruct (Z.leb_spec 200 status); [|lia].
  destruct (Z.ltb_spec status 300); [|lia]. reflexivity.
Qed.

Lemma settle_error (o : HttpOutcome) (status : Z) (doc : value) :
  error_answer o status doc ->
  settle o
  = Throw (mkError (VNum status)
             (js_or (field no_heap doc "message")
                (VStr ("GitHub API error: " ++ pretty status)))
             VUndefined (field no_heap doc "errors")).
Proof.
  intros [s ct body d Hs Hp Hn]. cbn [settle]. rewrite Hp.
  assert (Hc : Z.leb 200 s && Z.ltb s 300 = false).
  { destruct (Z.leb_spec 200 s); destruct (Z.ltb_spec s 300); try reflexivity; lia. }
  rewrite Hc, !(getProp_field _ _ _ Hn). reflexivity.
Qed.

Lemma read_present (o : HttpOutcome) (schedules sha : value) :
  present_answer o schedules sha -> read_result o = Ok (schedules, sha).
Proof.
  intros [status ct body text doc v Hs Hp Hn Hc Hd Hj]. unfold read_result.
  rewrite (settle_2xx status ct body doc Hs Hp).
  cbn [bind]. unfold read_snapshot. rewrite (getProp_field _ _ _ Hn). cbn [bind].
  rewrite Hc. cbn [negb]. rewrite Hd. cbn [bind]. rewrite Hj.
  rewrite (getProp_field _ _ _ Hn). reflexivity.
Qed.


End ClientFacts.

Section DisciplineFacts.
Context `{Engine}.

Lemma disciplined_ret (a : heap * result Response) : disciplined (Ret a).
Proof. intros o outs. left. eexists. reflexivity. Qed.

Lemma disciplined_read (k : value * value -> M Response) (h : heap) :
  ends_or_writes k h -> disciplined (mbind (await getCurrentSchedules) k h).
Proof.
  intros Hk o outs. right. rewrite await_read. cbn [trace run].
  destruct (read_result o) as [[schedules sha]|e] eqn:Hr.
  - destruct (Hk (schedules, sha)) as [[a Ha]|(v & msg & res & Hk')].
    + left. rewrite Ha. split; [reflexivity|]. exists a. split; [reflexivity|].
      intros e He. discriminate He.
    + right. exists schedules, sha, (updatePayload h v msg sha). split; [reflexivity|].
      rewrite Hk'. split.
      * rewrite trace_write; [reflexivity|]. intros x h'. eexists. reflexivity.
      * intros o2 outs' ->. exists h, res. apply run_write.
  - left. split; [reflexivity|]. eexists. split; [reflexivity|].
    intros e' He. cbn [snd]. congruence.
Qed.

Lemma disciplined_get (h : heap) : disciplined (do_get h).
Proof. apply disciplined_read. intros [schedules sha]. left. eexists. reflexivity. Qed.

Lemma disciplined_post (req : Request) (nd : Nondet) (h : heap) :
  disciplined (do_post req nd h).
Proof.
  unfold do_post. rewrite pure_step_bind.
  destruct (validateSchedule h (body req)) as [errs|e]; [|apply disciplined_ret].
  destruct (0 <? length errs)%nat; [apply disciplined_ret|].
  unfold mbind at 1.
  destruct (body req) as [| |b|n|s|xs|o|l]; cbn [assign pbind];
    try apply disciplined_ret; apply disciplined_read; intros [schedules sha];
    rewrite pure_step_bind; (destruct (spread schedules) as [ys|e]; [|left; eexists; reflexivity]);
    rewrite pure_step_bind;
    (match goal with |- context [commit_message ?a ?b ?c] =>
       destruct (commit_message a b c) as [msg|e]; [|left; eexists; reflexivity] end);
    right; do 3 eexists; reflexivity.
Qed.

Lemma disciplined_put (req : Request) (h : heap) : disciplined (do_put req h).
Proof.
  unfold do_put. rewrite pure_step_bind.
  destruct (getProp h (body req) "id") as [id|e]; [|apply disciplined_ret].
  destruct (negb (truthy id)); [apply disciplined_ret|].
  rewrite pure_step_bind.
  destruct (validateSchedule h (body req)) as [errs|e]; [|apply disciplined_ret].
  destruct (0 <? length errs)%nat; [apply disciplined_ret|].
  apply disciplined_read. intros [schedules sha].
  rewrite pure_step_bind.
  destruct (findIndex h schedules id) as [[xs [i|]]|e];
    [|left; eexists; reflexivity..].
  rewrite pure_step_bind.
  destruct (commit_message h "Update" (body req)) as [msg|e];
    [|left; eexists; reflexivity].
  right. do 3 eexists. reflexivity.
Qed.

Lemma disciplined_delete (req : Request) (h : heap) : disciplined (do_delete req h).
Proof.
  unfold do_delete.
  destruct (negb (truthy (query_id req))); [apply disciplined_ret|].
  apply disciplined_read. intros [schedules sha].
  rewrite pure_step_bind.
  destruct (findIndex h schedules (query_id req)) as [[xs [i|]]|e];
    [|left; eexists; reflexivity..].
  rewrite pure_step_bind.
  match goal with |- context [commit_message ?a ?b ?c] =>
    destruct (commit_message a b c) as [msg|e]; [|left; eexists; reflexivity] end.
  right. do 3 eexists. reflexivity.
Qed.

Lemma disciplined_route (req : Request) (nd : Nondet) (h : heap) :
  disciplined (route req nd h).
Proof.
  unfold route.
  destruct (String.eqb (method req) "GET"); [apply disciplined_get|].
  destruct (String.eqb (method req) "POST"); [apply disciplined_post|].
  destruct (String.eqb (method req) "PUT"); [apply disciplined_put|].
  destruct (String.eqb (method req) "DELETE"); [apply disciplined_delete|].
  apply disciplined_ret.
Qed.

End DisciplineFacts.

Section HandlerExtras.
Context `{Engine}.

Lemma handler_cases (req : Request) (nd : Nondet) (h : heap) :
  (exists res, handler req nd h = Ret (h, res))
  \/ handler req nd h = pbind (route req nd h) (fun hr => Ret (respond hr)).
Proof.
  unfold handler.
  destruct (String.eqb (method req) "OPTIONS"); [left; eexists; reflexivity|].
  destruct (negb has_token); [left; eexists; reflexivity|].
  right. reflexivity.
Qed.

(** X1. The client resolves only on a 2xx status with a body that parses
    (an empty body counting as [{}]), and then with the parsed document. *)
Theorem settle_resolves_iff (o : HttpOutcome) (v : value) :
  settle o = Ok v <->
  exists status content_type body,
    o = HttpResponse status content_type body
    /\ (200 <= status < 300)%Z
    /\ JSON_parse (body_or_empty body) = inl v.
Proof.
  split.
  - destruct o as [status ct body|m]; [|discriminate]. cbn [settle].
    destruct (JSON_parse (body_or_empty body)) as [json|m] eqn:Hp; [|discriminate].
    destruct (Z.leb_spec 200 status); destruct (Z.ltb_spec status 300); cbn [andb].
    + intros Hs. apply Ok_inj in Hs. subst v.
      exists status, ct, body. (split; [reflexivity|]). split; [lia | exact Hp].
    + destruct (let* m := _ in _) as [[? ?]|?]; discriminate.
    + destruct (let* m := _ in _) as [[? ?]|?]; discriminate.
    + destruct (let* m := _ in _) as [[? ?]|?]; discriminate.
  - intros (status & ct & body & -> & Hs & Hp). apply settle_2xx; assumption.
Qed.

(** X2. Whatever the request and whatever the remote answers, the
    handler sends nothing, or the read alone, or the read followed by one
    write: there is no second read and no second write. *)
Theorem handler_sends_at_most_two (req : Request) (nd : Nondet) (h : heap)
    (outs : list HttpOutcome) :
  trace (handler req nd h) outs = []
  \/ trace (handler req nd h) outs = [get_request]
  \/ exists p, trace (handler req nd h) outs = [get_request; put_request p].
Proof.
  destruct (handler_trace req nd h outs) as [Hnil|Heq]; [left; exact Hnil|].
  rewrite Heq.
  destruct (traced_route req nd h outs)
    as [Ht|[Ht|(o & outs' & schedules & sha & payload & _ & _ & Ht & _)]].
  - left. exact Ht.
  - right. left. exact Ht.
  - right. right. exists payload. exact Ht.
Qed.

(** X3. When the read of an operation fails (with anything but
    not-found), no write is sent and the response is made from the error
    of the read. *)
Theorem read_failure_aborts (req : Request) (nd : Nondet) (h : heap)
    (o : HttpOutcome) (outs : list HttpOutcome) (e : JsError) :
  read_result o = Throw e ->
  trace (handler req nd h) (o :: outs) = []
  \/ (trace (handler req nd h) (o :: outs) = [get_request]
      /\ exists h', run (handler req nd h) (o :: outs) = Some (h', on_error e)).
Proof.
  intros Hr. destruct (handler_cases req nd h) as [[res Hh]|Hh]; rewrite Hh;
    [left; reflexivity|].
  rewrite trace_respond, run_respond.
  destruct (disciplined_route req nd h o outs)
    as [[a Ha]|[(Ht & a & Hrun & Herr)|(s & sha & p & Hok & _)]].
  - left. rewrite Ha. reflexivity.
  - right. split; [exact Ht|]. rewrite Hrun. destruct a as [h' r].
    cbn [snd] in Herr. rewrite (Herr e Hr). exists h'. reflexivity.
  - rewrite Hr in Hok. discriminate Hok.
Qed.

(** X4. When a write is sent and the store refuses it, the operation is
    not tried again and the response is made from the error of the write:
    a conflict (409) of the store is answered with status 409 and the
    store's message. *)
Theorem write_failure_surfaces (req : Request) (nd : Nondet) (h : heap)
    (o o2 : HttpOutcome) (outs : list HttpOutcome) (p : Payload) (e : JsError) :
  trace (handler req nd h) (o :: o2 :: outs) = [get_request; put_request p] ->
  settle o2 = Throw e ->
  (exists h', run (handler req nd h) (o :: o2 :: outs) = Some (h', on_error e))
  /\ forall status doc,
       error_answer o2 status doc -> status <> 0%Z ->
       res_status (on_error e) = VNum status
       /\ exists d,
            res_body (on_error e)
            = BodyError (js_or (field no_heap doc "message")
                           (VStr ("GitHub API error: " ++ pretty status)))
                (Some d).
Proof.
  intros Ht Hs. split.
  - destruct (handler_cases req nd h) as [[res Hh]|Hh]; rewrite Hh in *;
      [discriminate Ht|].
    rewrite trace_respond in Ht. rewrite run_respond.
    destruct (disciplined_route req nd h o (o2 :: outs))
      as [[a Ha]|[(Ht' & _)|(s & sha & p' & _ & _ & Hrun)]].
    + rewrite Ha in Ht. discriminate Ht.
    + rewrite Ht' in Ht. discriminate Ht.
    + destruct (Hrun o2 outs eq_refl) as (h' & res & ->). rewrite Hs.
      exists h'. reflexivity.
  - intros status doc Herr Hnz. rewrite (settle_error _ _ _ Herr) in Hs.
    injection Hs as <-. unfold on_error. cbn [statusCode message res_status res_body].
    split.
    { unfold js_or. cbn [truthy]. destruct (Z.eqb_spec status 0); [contradiction|].
      reflexivity. }
    assert (Hm : truthy (js_or (field no_heap doc "message")
                          (VStr ("GitHub API error: " ++ pretty status))) = true).
    { unfold js_or. destruct (truthy (field no_heap doc "message")) eqn:Hm; [exact Hm|].
      reflexivity. }
    unfold js_or at 1. rewrite Hm. eexists. reflexivity.
Qed.

Lemma read_error (o : HttpOutcome) (status : Z) (doc : value) :
  error_answer o status doc -> status <> 404%Z ->
  read_result o
  = Throw (mkError (VNum status)
             (js_or (field no_heap doc "message")
                (VStr ("GitHub API error: " ++ pretty status)))
             VUndefined (field no_heap doc "errors")).
Proof.
  intros Herr Hne. unfold read_result. rewrite (settle_error _ _ _ Herr).
  cbn [bind catch_not_found statusCode strict_eq].
  destruct (Z.eqb_spec status 404); [contradiction|reflexivity].
Qed.

Lemma message_truthy (doc : value) (status : Z) :
  truthy (js_or (field no_heap doc "message")
            (VStr ("GitHub API error: " ++ pretty status))) = true.
Proof.
  unfold js_or. destruct (truthy (field no_heap doc "message")) eqn:Hm; [exact Hm|].
  reflexivity.
Qed.

(** X5. A list request whose read is answered with an error status other
    than 404 (rejected credentials, a server error) answers with that same
    status, with the store's message or, when it has none,
    [GitHub API error: <status>], and with the store's [errors] as details
    or [No additional details]. *)
Theorem list_passes_remote_error (req : Request) (nd : Nondet) (h : heap)
    (o : HttpOutcome) (status : Z) (doc : value) :
  has_token = true -> method req = "GET" ->
  error_answer o status doc -> status <> 404%Z -> status <> 0%Z ->
  run (handler req nd h) [o]
  = Some (h, mkRes (VNum status)
               (BodyError
                  (js_or (field no_heap doc "message")
                     (VStr ("GitHub API error: " ++ pretty status)))
                  (Some (js_or (field no_heap doc "errors")
                           (VStr "No additional details")))))
  /\ trace (handler req nd h) [o] = [get_request].
Proof.
  intros Htok Hm Herr H404 Hnz.
  rewrite (handler_get req nd h Htok Hm), run_respond, trace_respond.
  unfold do_get. rewrite await_read. cbn [run trace].
  rewrite (read_error o status doc Herr H404).
  split; [|reflexivity].
  change (Some (respond (h, Throw (mkError (VNum status)
            (js_or (field no_heap doc "message")
               (VStr ("GitHub API error: " ++ pretty status)))
            VUndefined (field no_heap doc "errors")))) = 
          Some (h, mkRes (VNum status)
               (BodyError
                  (js_or (field no_heap doc "message")
                     (VStr ("GitHub API error: " ++ pretty status)))
                  (Some (js_or (field no_heap doc "errors")
                           (VStr "No additional details")))))).
  unfold respond, on_error. cbn [statusCode message details errors].
  assert (Hst : js_or (VNum status) (VNum 500) = VNum status).
  { unfold js_or. cbn [truthy]. destruct (Z.eqb_spec status 0); [contradiction|reflexivity]. }
  rewrite Hst. unfold js_or at 1. rewrite message_truthy. reflexivity.
Qed.

(** X6. The order of the guards: a preflight ([OPTIONS]) is answered 200
    with no body even when no token is configured; without a token every
    other request is answered 500; with a token a method outside GET,
    POST, PUT, DELETE is answered 405.  None of the three sends anything
    or touches the heap. *)
Theorem guarded_requests_send_nothing (req : Request) (nd : Nondet) (h : heap) :
  (method req = "OPTIONS" -> handler req nd h = Ret (h, mkRes (VNum 200) BodyNone))
  /\ (method req <> "OPTIONS" -> has_token = false ->
      handler req nd h
      = Ret (h, mkRes (VNum 500)
                  (BodyError
                     (VStr "Missing GitHub token. Set GITHUB_TOKEN environment variable.")
                     None)))
  /\ (has_token = true ->
      ~ In (method req) ["OPTIONS"; "GET"; "POST"; "PUT"; "DELETE"] ->
      handler req nd h
      = Ret (h, mkRes (VNum 405)
                  (BodyError
                     (VStr "Method not allowed. Supported methods: GET, POST, PUT, DELETE")
                     None))).
Proof.
  split; [|split].
  - intros Hm. unfold handler. rewrite Hm. reflexivity.
  - intros Hm Htok. unfold handler. rewrite Htok.
    destruct (String.eqb_spec (method req) "OPTIONS"); [contradiction|reflexivity].
  - intros Htok Hm. rewrite handler_route; [|exact Htok|intros Heq; apply Hm; rewrite Heq; simpl; tauto].
    unfold route.
    destruct (String.eqb_spec (method req) "GET") as [Heq|_];
      [exfalso; apply Hm; rewrite Heq; simpl; tauto|].
    destruct (String.eqb_spec (method req) "POST") as [Heq|_];
      [exfalso; apply Hm; rewrite Heq; simpl; tauto|].
    destruct (String.eqb_spec (method req) "PUT") as [Heq|_];
      [exfalso; apply Hm; rewrite Heq; simpl; tauto|].
    destruct (String.eqb_spec (method req) "DELETE") as [Heq|_];
      [exfalso; apply Hm; rewrite Heq; simpl; tauto|].
    reflexivity.
Qed.

(** X7. A delete without an id in the query (absent or empty) is
    answered 400 before anything is read. *)
Theorem delete_without_id_no_io (req : Request) (nd : Nondet) (h : heap) :
  has_token = true -> method req = "DELETE" ->
  truthy (query_id req) = false ->
  handler req nd h = Ret (h, bad_request "ID jadwal wajib diisi").
Proof.
  intros Htok Hm Hid. rewrite (handler_delete req nd h Htok Hm).
  unfold do_delete. rewrite Hid. reflexivity.
Qed.

(** X8. A list request sends the read and nothing else, leaves the heap
    as it is, and answers 200 with the collection the blob decodes to, or
    with the empty list when that is a falsy value such as [null]. *)
Theorem list_returns_collection (req : Request) (nd : Nondet) (h : heap)
    (o : HttpOutcome) (schedules sha : value) :
  has_token = true -> method req = "GET" ->
  present_answer o schedules sha ->
  (forall outs, trace (handler req nd h) outs = [get_request])
  /\ run (handler req nd h) [o]
     = Some (h, mkRes (VNum 200)
                  (BodyList (if truthy schedules then schedules else VArr []))).
Proof.
  intros Htok Hm Hp. rewrite (handler_get req nd h Htok Hm). split.
  - intros outs. rewrite trace_respond. unfold do_get. rewrite await_read.
    cbn [trace]. destruct outs as [|o' outs]; [reflexivity|].
    destruct (read_result o') as [[s t]|e]; reflexivity.
  - rewrite run_respond. unfold do_get. rewrite await_read. cbn [run].
    rewrite (read_present o schedules sha Hp). reflexivity.
Qed.

End HandlerExtras.

Section CompositionFacts.
Context `{Engine}.





End CompositionFacts.

Section EdgeFacts.
Context `{Engine}.

Lemma do_put_absent (req : Request) (h : heap) (o : HttpOutcome)
    (outs : list HttpOutcome) (xs : list value) (sha : value) :
  truthy (field h (body req) "id") = true ->
  validateSchedule h (body req) = Ok [] ->
  read_result o = Ok (VArr xs, sha) ->
  Forall (fun s => nullish s = false) xs ->
  split_at_id h (field h (body req) "id") xs = None ->
  trace (do_put req h) (o :: outs) = [get_request]
  /\ run (do_put req h) (o :: outs) = Some (h, Ok not_found).
Proof.
  intros Hid Hv Hr Hall Hnone.
  pose proof (validateSchedule_Ok_record _ _ _ Hv) as Hn.
  unfold do_put. rewrite pure_step_bind, (getProp_field _ _ _ Hn), Hid. cbn [negb].
  rewrite pure_step_bind, Hv. cbn [length Nat.ltb Nat.leb].
  apply (read_then_end _ h o outs (VArr xs, sha) _ Hr).
  rewrite pure_step_bind, (findIndex_array h _ _ Hall), Hnone. reflexivity.
Qed.

(** X12. An update whose id is carried by no record of the read
    collection is answered not-found (404) and writes nothing. *)
Theorem update_absent_not_found (req : Request) (nd : Nondet) (h : heap)
    (o : HttpOutcome) (outs : list HttpOutcome) (xs : list value) (sha : value) :
  has_token = true -> method req = "PUT" ->
  truthy (field h (body req) "id") = true ->
  validateSchedule h (body req) = Ok [] ->
  read_result o = Ok (VArr xs, sha) ->
  Forall (fun s => nullish s = false) xs ->
  Forall (fun s => has_id h (field h (body req) "id") s = false) xs ->
  run (handler req nd h) (o :: outs) = Some (h, not_found)
  /\ trace (handler req nd h) (o :: outs) = [get_request].
Proof.
  intros Htok Hm Hid Hv Hr Hall Hnone. apply split_at_id_None in Hnone.
  destruct (do_put_absent req h o outs xs sha Hid Hv Hr Hall Hnone) as [Ht Hrun].
  rewrite (handler_put req nd h Htok Hm), run_respond, trace_respond, Hrun, Ht.
  split; reflexivity.
Qed.

(** X13. A create assigns the id to the caller's object as soon as the
    input has passed validation, before the read: whatever the remote
    then answers, and also when the read or the write fails, the object
    is left with the generated id. *)
Theorem create_assigns_before_read (req : Request) (nd : Nondet) (h : heap)
    (l : loc) (fields : gmap string value) (outs : list HttpOutcome)
    (hf : heap) (res : Response) :
  has_token = true -> method req = "POST" ->
  body req = VRef l -> h !! l = Some fields ->
  validateSchedule h (VRef l) = Ok [] ->
  run (handler req nd h) outs = Some (hf, res) ->
  hf = <[l := <["id" := VStr (generateScheduleId nd)]> fields]> h.
Proof.
  intros Htok Hm Hb Hl Hv. rewrite (handler_post req nd h Htok Hm), run_respond.
  unfold do_post. rewrite Hb, pure_step_bind, Hv. cbn [length Nat.ltb Nat.leb].
  unfold mbind at 1. cbn [assign pbind]. rewrite Hl. cbn [default from_option id].
  set (h' := <[l := _]> h). rewrite await_read. cbn [run].
  destruct outs as [|o outs]; [discriminate|].
  destruct (read_result o) as [[schedules sha]|e]; cbn [run];
    [|intros Hrun; cbn [fmap option_fmap option_map respond] in Hrun; congruence].
  rewrite pure_step_bind.
  destruct (spread schedules) as [xs|e]; cbn [run];
    [|intros Hrun; cbn [fmap option_fmap option_map respond] in Hrun; congruence].
  rewrite pure_step_bind.
  destruct (commit_message h' "Tambah" (VRef l)) as [msg|e]; cbn [run];
    [|intros Hrun; cbn [fmap option_fmap option_map respond] in Hrun; congruence].
  destruct outs as [|o2 outs].
  - unfold mbind, updateGitHubFile, await, githubRequest. cbn [pbind run]. discriminate.
  - rewrite run_write. intros Hrun.
    cbn [fmap option_fmap option_map respond] in Hrun.
    destruct (settle o2); cbn [respond] in Hrun; congruence.
Qed.


(** The fault of [schedules.findIndex(...)] on a value that is not an
    array. *)
Lemma findIndex_non_array (h : heap) (schedules id : value) :
  (forall xs, schedules <> VArr xs) ->
  findIndex h schedules id
  = Throw (type_error
             (if nullish schedules then ReadOfNullish schedules "findIndex"
              else NotCallable schedules "schedules.findIndex")).
Proof.
  intros Harr. destruct schedules; try reflexivity. exfalso. eapply Harr. reflexivity.
Qed.

(** X15. A blob that decodes to something that is not an array: update
    and delete answer 500 and write nothing, with the engine's error for
    reading [findIndex] of [null] when the value is [null], and with its
    error for calling the missing [findIndex] on any other value (an
    object, a number, a string); so does create, with the engine's error
    for a value that cannot be spread, unless the value is a string. *)
Theorem non_array_blob_fails (req : Request) (nd : Nondet) (h : heap)
    (o : HttpOutcome) (outs : list HttpOutcome) (schedules sha : value) :
  has_token = true ->
  read_result o = Ok (schedules, sha) ->
  (forall xs, schedules <> VArr xs) ->
  let fault :=
    if nullish schedules then ReadOfNullish schedules "findIndex"
    else NotCallable schedules "schedules.findIndex" in
  (method req = "PUT" -> validateSchedule h (body req) = Ok [] ->
   truthy (field h (body req) "id") = true ->
   run (handler req nd h) (o :: outs) = Some (h, on_error (type_error fault))
   /\ trace (handler req nd h) (o :: outs) = [get_request])
  /\ (method req = "DELETE" -> truthy (query_id req) = true ->
      run (handler req nd h) (o :: outs) = Some (h, on_error (type_error fault))
      /\ trace (handler req nd h) (o :: outs) = [get_request])
  /\ (method req = "POST" -> validateSchedule h (body req) = Ok [] ->
      (forall s, schedules <> VStr s) ->
      (exists h', run (handler req nd h) (o :: outs)
                  = Some (h', on_error (type_error (NotIterable schedules))))
      /\ trace (handler req nd h) (o :: outs) = [get_request]).
Proof.
  intros Htok Hr Harr fault.
  pose proof (fun id => findIndex_non_array h schedules id Harr) as Hfind.
  fold fault in Hfind.
  split; [|split].
  - intros Hm Hv Hid. pose proof (validateSchedule_Ok_record _ _ _ Hv) as Hn.
    rewrite (handler_put req nd h Htok Hm), run_respond, trace_respond.
    unfold do_put. rewrite pure_step_bind, (getProp_field _ _ _ Hn), Hid. cbn [negb].
    rewrite pure_step_bind, Hv. cbn [length Nat.ltb Nat.leb].
    rewrite await_read. cbn [run trace]. rewrite Hr, pure_step_bind, Hfind.
    split; reflexivity.
  - intros Hm Hid. rewrite (handler_delete req nd h Htok Hm), run_respond, trace_respond.
    unfold do_delete. rewrite Hid. cbn [negb].
    rewrite await_read. cbn [run trace]. rewrite Hr, pure_step_bind, Hfind.
    split; reflexivity.
  - intros Hm Hv Hstr. pose proof (validateSchedule_Ok_record _ _ _ Hv) as Hn.
    rewrite (handler_post req nd h Htok Hm), run_respond, trace_respond.
    unfold do_post. rewrite pure_step_bind, Hv. cbn [length Nat.ltb Nat.leb].
    assert (Hspread : spread schedules = Throw (type_error (NotIterable schedules))).
    { destruct schedules; try reflexivity; exfalso;
        [eapply Hstr | eapply Harr]; reflexivity. }
    destruct (body req) as [| |b|n|s|xs|ob|l]; try discriminate Hn;
      (split; [eexists|]); unfold mbind at 1; cbn [assign pbind];
      rewrite await_read; cbn [run trace];
      rewrite Hr, pure_step_bind, Hspread; reflexivity.
Qed.

Lemma strict_eq_eq (a b : value) : strict_eq a b = true -> a = b.
Proof.
  destruct a, b; cbn [strict_eq]; intros Heq; try discriminate; try reflexivity.
  - apply Bool.eqb_prop in Heq. congruence.
  - apply Z.eqb_eq in Heq. congruence.
  - apply String.eqb_eq in Heq. congruence.
  - apply Pos.eqb_eq in Heq. congruence.
Qed.


End EdgeFacts.

Section ValidationExtras.
Context `{Engine}.

Lemma violates_frame (h h' : heap) (s s' : value) (r : rule) :
  (forall k, In k ["class"; "day"; "subject"; "teacher"; "startTime"; "endTime"] ->
             field h s k = field h' s' k) ->
  violates h s r = violates h' s' r.
Proof.
  intros Hf. destruct r; cbn [violates];
    rewrite ?(Hf "class"), ?(Hf "day"), ?(Hf "subject"), ?(Hf "teacher"),
            ?(Hf "startTime"), ?(Hf "endTime") by (simpl; tauto);
    reflexivity.
Qed.

Lemma validation_frame (h h' : heap) (s s' : value) :
  nullish s = false -> nullish s' = false ->
  (forall k, In k ["class"; "day"; "subject"; "teacher"; "startTime"; "endTime"] ->
             field h s k = field h' s' k) ->
  validateSchedule h s = validateSchedule h' s'.
Proof.
  intros Hn Hn' Hf. rewrite (validateSchedule_rules h s Hn), (validateSchedule_rules h' s' Hn').
  do 2 f_equal. unfold all_rules. cbn [List.filter].
  rewrite !(violates_frame h h' s s' _ Hf). reflexivity.
Qed.

(** X17. Validation looks at the six fields [class], [day], [subject],
    [teacher], [startTime] and [endTime] and at nothing else: two records
    that agree on them get the same errors, whatever their [id] and their
    other fields. *)
Theorem validation_reads_six_fields (h h' : heap) (s s' : value) :
  nullish s = false -> nullish s' = false ->
  (forall k, In k ["class"; "day"; "subject"; "teacher"; "startTime"; "endTime"] ->
             field h s k = field h' s' k) ->
  validateSchedule h s = validateSchedule h' s'.
Proof. apply validation_frame. Qed.

Lemma time_test_truthy (v : value) : time_test v = true -> truthy v = true.
Proof.
  destruct v as [| |b|n|s|xs|o|l]; try discriminate; try reflexivity.
  - destruct b; [reflexivity | discriminate].
  - cbn [truthy]. destruct (Z.eqb_spec n 0) as [->|]; [discriminate | reflexivity].
  - destruct s; [discriminate | reflexivity].
Qed.

Lemma includes_In (arr : list string) (v : value) :
  includes arr v = true <-> exists s, In s arr /\ v = VStr s.
Proof.
  unfold includes. rewrite existsb_exists. split.
  - intros (s & Hin & Heq). exists s. split; [exact Hin|].
    symmetry. apply strict_eq_eq. exact Heq.
  - intros (s & Hin & ->). exists s. split; [exact Hin|].
    cbn [strict_eq]. apply String.eqb_refl.
Qed.

Lemma includes_truthy (arr : list string) (v : value) :
  ~ In "" arr -> includes arr v = true -> truthy v = true.
Proof.
  intros Hne Hi. apply includes_In in Hi as (s & Hin & ->). cbn [truthy].
  destruct (String.eqb_spec s ""); [subst; contradiction | reflexivity].
Qed.

(** X18. A record passes validation with no error exactly when its class
    is the string [XI A] or [XI B], its day one of the five weekday
    strings, its subject and teacher truthy, both times match the time
    pattern, and the end time does not compare as earlier than or equal to
    the start time. *)
Theorem validation_accepts_exactly (h : heap) (s : value) :
  nullish s = false ->
  (validateSchedule h s = Ok [] <->
   (exists c, In c valid_classes /\ field h s "class" = VStr c)
   /\ (exists d, In d valid_days /\ field h s "day" = VStr d)
   /\ truthy (field h s "subject") = true
   /\ truthy (field h s "teacher") = true
   /\ time_test (field h s "startTime") = true
   /\ time_test (field h s "endTime") = true
   /\ date_le (date_of_time (field h s "endTime"))
              (date_of_time (field h s "startTime")) = false).
Proof.
  intros Hn. rewrite <- !includes_In.
  assert (Hc : ~ In "" valid_classes) by (cbv; intuition discriminate).
  assert (Hd : ~ In "" valid_days) by (cbv; intuition discriminate).
  split.
  - intros Hv.
    assert (Hall : forall r, violates h s r = false).
    { intros r. destruct (violates h s r) eqn:Hr; [|reflexivity].
      apply (validateSchedule_mem h s [] Hn Hv) in Hr. destruct Hr. }
    pose proof (Hall RuleClass) as H1. pose proof (Hall RuleDay) as H2.
    pose proof (Hall RuleSubject) as H3. pose proof (Hall RuleTeacher) as H4.
    pose proof (Hall RuleStart) as H5. pose proof (Hall RuleEnd) as H6.
    pose proof (Hall RuleOrder) as H7. cbn [violates] in *.
    apply orb_false_iff in H1 as [_ H1]. apply orb_false_iff in H2 as [_ H2].
    apply orb_false_iff in H5 as [H5t H5]. apply orb_false_iff in H6 as [H6t H6].
    apply negb_false_iff in H1, H2, H3, H4, H5, H6, H5t, H6t.
    rewrite H5t, H6t in H7. cbn [andb] in H7. tauto.
  - intros (H1 & H2 & H3 & H4 & H5 & H6 & H7).
    rewrite (validateSchedule_rules h s Hn). unfold all_rules. cbn [List.filter violates].
    rewrite (includes_truthy _ _ Hc H1), (includes_truthy _ _ Hd H2), H1, H2, H3, H4.
    rewrite (time_test_truthy _ H5), (time_test_truthy _ H6), H5, H6, H7.
    reflexivity.
Qed.

End ValidationExtras.

Section CreateExtras.
Context `{Engine}.

Lemma substring_length_le (n m : nat) (s : string) :
  (String.length (substring n m s) <= m)%nat.
Proof.
  revert n m. induction s as [|c s IH]; intros [|n] [|m]; cbn; auto with arith.
Qed.

Lemma substring_length_full (n m : nat) (s : string) :
  (n + m <= String.length s)%nat -> String.length (substring n m s) = m.
Proof.
  revert n m. induction s as [|c s IH]; intros [|n] [|m]; cbn; intros Hl;
    try reflexivity; try lia.
  - f_equal. apply IH. lia.
  - apply IH. lia.
  - apply IH. lia.
Qed.

(** X19. A generated id is [jadwal_], the timestamp in decimal, [_] and
    a suffix of at most nine characters taken from the random text after
    its first two; the suffix has nine characters when that text has at
    least eleven, and is empty when it has at most two (as for a random
    number that prints as [0]).  The id is never the empty string. *)
Theorem generateScheduleId_shape (nd : Nondet) :
  exists suffix,
    generateScheduleId nd = "jadwal_" ++ pretty (now nd) ++ "_" ++ suffix
    /\ suffix = substring 2 9 (random36 nd)
    /\ (String.length suffix <= 9)%nat
    /\ ((11 <= String.length (random36 nd))%nat -> String.length suffix = 9%nat)
    /\ ((String.length (random36 nd) <= 2)%nat -> suffix = "")
    /\ truthy (VStr (generateScheduleId nd)) = true.
Proof.
  exists (substring 2 9 (random36 nd)). split; [reflexivity|]. split; [reflexivity|].
  split; [apply substring_length_le|]. split; [|split].
  - intros Hl. apply substring_length_full. lia.
  - intros Hl. destruct (random36 nd) as [|a [|b [|c s]]]; try reflexivity.
    cbn in Hl. lia.
  - reflexivity.
Qed.

(** X20. What a create stores would itself pass validation and carries a
    non-empty id: the record can be sent back as an update without being
    refused on its input. *)
Theorem created_record_is_valid (nd : Nondet) (h : heap) (l : loc)
    (fields : gmap string value) :
  h !! l = Some fields ->
  validateSchedule h (VRef l) = Ok [] ->
  let stored := <["id" := VStr (generateScheduleId nd)]> fields in
  let h' := <[l := stored]> h in
  validateSchedule h' (VRef l) = Ok []
  /\ validateSchedule no_heap (VObj stored) = Ok []
  /\ truthy (field no_heap (VObj stored) "id") = true.
Proof.
  intros Hl Hv stored h'.
  assert (Hf : forall k,
             In k ["class"; "day"; "subject"; "teacher"; "startTime"; "endTime"] ->
             field no_heap (VObj stored) k = field h (VRef l) k).
  { intros k Hk. cbn [field]. unfold lookup_field, stored. rewrite Hl.
    rewrite lookup_insert_ne; [reflexivity|].
    intros <-. cbn in Hk. intuition discriminate. }
  split; [|split].
  - rewrite <- Hv. apply validation_frame; try reflexivity.
    intros k Hk. rewrite <- (Hf k Hk). cbn [field]. unfold h'.
    rewrite lookup_insert_eq. reflexivity.
  - rewrite <- Hv. apply validation_frame; try reflexivity. exact Hf.
  - cbn [field]. unfold lookup_field, stored. rewrite lookup_insert_eq. reflexivity.
Qed.

(** X21. A create or an update that comes without a body ([undefined] or
    [null]) sends nothing: reading the first property of the missing body
    throws ([class] for a create, [id] for an update), and the handler
    answers 500 with the engine's text for that read on that value, which
    is not the same for [null] and for [undefined]. *)
Theorem missing_body_fails_without_io (req : Request) (nd : Nondet) (h : heap) :
  has_token = true -> nullish (body req) = true ->
  (method req = "POST" ->
   handler req nd h
   = Ret (h, mkRes (VNum 500)
               (BodyError
                  (js_or (VStr (fault_text (ReadOfNullish (body req) "class")))
                     (VStr "Internal server error"))
                  (Some (VStr "No additional details")))))
  /\ (method req = "PUT" ->
      handler req nd h
      = Ret (h, mkRes (VNum 500)
                  (BodyError
                     (js_or (VStr (fault_text (ReadOfNullish (body req) "id")))
                        (VStr "Internal server error"))
                     (Some (VStr "No additional details"))))).
Proof.
  intros Htok Hn. split.
  - intros Hm. rewrite (handler_post req nd h Htok Hm). unfold do_post.
    rewrite pure_step_bind. destruct (body req); try discriminate Hn; reflexivity.
  - intros Hm. rewrite (handler_put req nd h Htok Hm). unfold do_put.
    rewrite pure_step_bind. destruct (body req); try discriminate Hn; reflexivity.
Qed.

End CreateExtras.

Section Part000Facts.
Context `{Engine}.






(** X22. In [part_000], a create or update whose body is a string that
    does not parse as JSON is answered 400 [Invalid JSON format] and
    sends nothing. *)
Theorem invalid_json_body_rejected (req : Request) (nd : Nondet) (h : heap)
    (s m : string) :
  has_token = true ->
  method req = "POST" \/ method req = "PUT" ->
  body req = VStr s -> JSON_parse s = inr m ->
  Part000Api.handler req nd h = Ret (h, bad_request "Invalid JSON format").
Proof.
  intros Htok Hm Hb Hp. unfold Part000Api.handler, Part000Api.route, Part000Api.requestBody.
  rewrite Htok, Hb, Hp. destruct Hm as [-> | ->]; reflexivity.
Qed.




End Part000Facts.

Section HeapFrame.
Context `{Engine}.

Lemma run_read_keeps (k : value * value -> M Response) (h : heap)
    (outs : list HttpOutcome) (hf : heap) (r : result Response) :
  (forall snap outs', run (k snap h) outs' = Some (hf, r) -> hf = h) ->
  run (mbind (await getCurrentSchedules) k h) outs = Some (hf, r) -> hf = h.
Proof.
  intros Hk. rewrite await_read. cbn [run].
  destruct outs as [|o outs]; [discriminate|].
  destruct (read_result o) as [snap|e]; [apply Hk|].
  cbn [run]. intros Hrun. congruence.
Qed.

Lemma run_write_keeps (v : value) (msg : string) (sha : value) (res : Response)
    (h : heap) (outs : list HttpOutcome) (hf : heap) (r : result Response) :
  run (mbind (updateGitHubFile v msg sha) (fun _ => mret res) h) outs = Some (hf, r) ->
  hf = h.
Proof.
  destruct outs as [|o outs].
  - unfold mbind, updateGitHubFile, await, githubRequest. cbn [pbind run]. discriminate.
  - rewrite run_write. intros Hrun. congruence.
Qed.

(** X26. Only a create writes the heap: a list, an update or a delete,
    and every request refused on its method or for a missing token,
    leaves every object of the caller as it was, whatever the remote
    answers. *)
Theorem only_create_writes_heap (req : Request) (nd : Nondet) (h : heap)
    (outs : list HttpOutcome) (hf : heap) (res : Response) :
  method req <> "POST" ->
  run (handler req nd h) outs = Some (hf, res) ->
  hf = h.
Proof.
  intros Hm. destruct (handler_cases req nd h) as [[res' Hh]|Hh]; rewrite Hh.
  { cbn [run]. intros Hrun. congruence. }
  rewrite run_respond.
  assert (Hroute : forall r, run (route req nd h) outs = Some (hf, r) -> hf = h).
  { intros r. unfold route.
    destruct (String.eqb (method req) "GET").
    { unfold do_get. apply run_read_keeps. intros [schedules sha] outs'.
      cbn [run mret]. congruence. }
    destruct (String.eqb_spec (method req) "POST"); [contradiction|].
    destruct (String.eqb (method req) "PUT").
    { unfold do_put. rewrite pure_step_bind.
      destruct (getProp h (body req) "id") as [id|e]; [|cbn [run]; congruence].
      destruct (negb (truthy id)); [cbn [run mret]; congruence|].
      rewrite pure_step_bind.
      destruct (validateSchedule h (body req)) as [errs|e]; [|cbn [run]; congruence].
      destruct (0 <? length errs)%nat; [cbn [run mret]; congruence|].
      apply run_read_keeps. intros [schedules sha] outs'.
      rewrite pure_step_bind.
      destruct (findIndex h schedules id) as [[xs [i|]]|e];
        [|cbn [run mret]; congruence..].
      rewrite pure_step_bind.
      destruct (commit_message h "Update" (body req)) as [msg|e];
        [|cbn [run]; congruence].
      apply run_write_keeps. }
    destruct (String.eqb (method req) "DELETE").
    { unfold do_delete.
      destruct (negb (truthy (query_id req))); [cbn [run mret]; congruence|].
      apply run_read_keeps. intros [schedules sha] outs'.
      rewrite pure_step_bind.
      destruct (findIndex h schedules (query_id req)) as [[xs [i|]]|e];
        [|cbn [run mret]; congruence..].
      rewrite pure_step_bind.
      match goal with |- context [commit_message ?a ?b ?c] =>
        destruct (commit_message a b c) as [msg|e]; [|cbn [run]; congruence] end.
      apply run_write_keeps. }
    cbn [run mret]. congruence. }
  destruct (run (route req nd h) outs) as [[h1 r]|] eqn:Hrun; [|discriminate].
  cbn [fmap option_fmap option_map]. intros Heq.
  assert (h1 = hf) as -> by (destruct r; cbn [respond] in Heq; congruence).
  eapply Hroute. reflexivity.
Qed.

End HeapFrame.

(* ===================================================================== *)
(** ** The properties on the sample store *)
(* ===================================================================== *)

Lemma store_reads_two :
  @read_result store_engine (file_of "[a/Fisika,b/Kimia]")
  = Ok (VArr two_records, VStr "sha-[a/Fisika,b/Kimia]").
Proof. vm_compute. reflexivity. Defined.

Lemma two_records_not_null : Forall (fun s => nullish s = false) two_records.
Proof. repeat constructor. Defined.

Lemma read_failure_aborts_witness :
  trace (@handler store_engine delete_req sample_nondet sample_heap) [unauthorized] = []
  \/ (trace (@handler store_engine delete_req sample_nondet sample_heap) [unauthorized]
      = [@get_request store_engine]
      /\ exists h',
           run (@handler store_engine delete_req sample_nondet sample_heap) [unauthorized]
           = Some (h', on_error
                         (mkError (VNum 401) (VStr "Bad credentials") VUndefined VUndefined))).
Proof.
  apply (@read_failure_aborts store_engine delete_req sample_nondet sample_heap
           unauthorized []).
  vm_compute. reflexivity.
Defined.

Lemma write_failure_surfaces_witness :
  (exists h',
     run (@handler store_engine delete_req sample_nondet sample_heap)
       [file_of "[a/Fisika,b/Kimia]"; conflict]
     = Some (h', on_error
                   (mkError (VNum 409) (VStr "jadwal.json does not match")
                      VUndefined VUndefined)))
  /\ forall status doc,
       @error_answer store_engine conflict status doc -> status <> 0%Z ->
       res_status (on_error
                     (mkError (VNum 409) (VStr "jadwal.json does not match")
                        VUndefined VUndefined)) = VNum status
       /\ exists d,
            res_body (on_error
                        (mkError (VNum 409) (VStr "jadwal.json does not match")
                           VUndefined VUndefined))
            = BodyError (js_or (field no_heap doc "message")
                           (VStr ("GitHub API error: " ++ pretty status)))
                (Some d).
Proof.
  apply (@write_failure_surfaces store_engine delete_req sample_nondet sample_heap
           (file_of "[a/Fisika,b/Kimia]") conflict []
           (@updatePayload store_engine sample_heap (VArr [sample_record "b" "Kimia"])
              "Hapus jadwal: Fisika untuk XI A" (VStr "sha-[a/Fisika,b/Kimia]"))).
  - vm_compute. reflexivity.
  - vm_compute. reflexivity.
Defined.

Lemma list_passes_remote_error_witness :
  run (@handler store_engine list_req sample_nondet sample_heap) [unauthorized]
  = Some (sample_heap,
          mkRes (VNum 401)
            (BodyError
               (js_or (field no_heap (VObj (obj_of [("message", VStr "Bad credentials")]))
                         "message")
                  (VStr ("GitHub API error: " ++ pretty 401%Z)))
               (Some (js_or (field no_heap
                               (VObj (obj_of [("message", VStr "Bad credentials")]))
                               "errors")
                        (VStr "No additional details")))))
  /\ trace (@handler store_engine list_req sample_nondet sample_heap) [unauthorized]
     = [@get_request store_engine].
Proof.
  apply (@list_passes_remote_error store_engine list_req sample_nondet sample_heap
           unauthorized 401 (VObj (obj_of [("message", VStr "Bad credentials")]))).
  - reflexivity.
  - reflexivity.
  - apply (@AnswerError store_engine 401 json_type "UNAUTHORIZED"
             (VObj (obj_of [("message", VStr "Bad credentials")]))).
    + right. lia.
    + reflexivity.
    + reflexivity.
  - lia.
  - lia.
Defined.

Lemma store_holds (c : string) :
  @holds_content store_engine (file_of c) c (field no_heap (file_doc c) "sha").
Proof.
  apply (@HoldsContent store_engine 200 json_type ("FILE:" ++ c) (file_doc c) c).
  - lia.
  - reflexivity.
  - reflexivity.
  - reflexivity.
Defined.

Lemma store_present_two :
  @present_answer store_engine (file_of "[a/Fisika,b/Kimia]") (VArr two_records)
    (field no_heap (file_doc "[a/Fisika,b/Kimia]") "sha").
Proof.
  apply (@AnswerContent store_engine 200 json_type "FILE:[a/Fisika,b/Kimia]"
           "[a/Fisika,b/Kimia]" (file_doc "[a/Fisika,b/Kimia]") (VArr two_records)).
  - lia.
  - reflexivity.
  - reflexivity.
  - reflexivity.
  - reflexivity.
  - reflexivity.
Defined.

Lemma guarded_requests_send_nothing_witness :
  @handler store_engine (mkReq "OPTIONS" VUndefined VUndefined) sample_nondet sample_heap
  = Ret (sample_heap, mkRes (VNum 200) BodyNone)
  /\ @handler store_engine (mkReq "PATCH" VUndefined VUndefined) sample_nondet sample_heap
     = Ret (sample_heap,
            mkRes (VNum 405)
              (BodyError
                 (VStr "Method not allowed. Supported methods: GET, POST, PUT, DELETE")
                 None)).
Proof.
  split.
  - apply (proj1 (@guarded_requests_send_nothing store_engine
                    (mkReq "OPTIONS" VUndefined VUndefined) sample_nondet sample_heap)).
    reflexivity.
  - apply (proj2 (proj2 (@guarded_requests_send_nothing store_engine
                           (mkReq "PATCH" VUndefined VUndefined) sample_nondet sample_heap))).
    + reflexivity.
    + cbv. intuition discriminate.
Defined.

Lemma delete_without_id_no_io_witness :
  @handler store_engine (mkReq "DELETE" VUndefined (VStr "")) sample_nondet sample_heap
  = Ret (sample_heap, bad_request "ID jadwal wajib diisi").
Proof.
  apply (@delete_without_id_no_io store_engine (mkReq "DELETE" VUndefined (VStr ""))
           sample_nondet sample_heap); reflexivity.
Defined.

Lemma list_returns_collection_witness :
  (forall outs,
     trace (@handler store_engine list_req sample_nondet sample_heap) outs
     = [@get_request store_engine])
  /\ run (@handler store_engine list_req sample_nondet sample_heap)
       [file_of "[a/Fisika,b/Kimia]"]
     = Some (sample_heap,
             mkRes (VNum 200)
               (BodyList (if truthy (VArr two_records) then VArr two_records else VArr []))).
Proof.
  apply (@list_returns_collection store_engine list_req sample_nondet sample_heap
           (file_of "[a/Fisika,b/Kimia]") (VArr two_records)
           (field no_heap (file_doc "[a/Fisika,b/Kimia]") "sha")).
  - reflexivity.
  - reflexivity.
  - exact store_present_two.
Defined.




Lemma update_absent_not_found_witness :
  run (@handler store_engine stray_update_req sample_nondet sample_heap)
    [file_of "[a/Fisika,b/Kimia]"]
  = Some (sample_heap, not_found)
  /\ trace (@handler store_engine stray_update_req sample_nondet sample_heap)
       [file_of "[a/Fisika,b/Kimia]"]
     = [@get_request store_engine].
Proof.
  apply (@update_absent_not_found store_engine stray_update_req sample_nondet sample_heap
           (file_of "[a/Fisika,b/Kimia]") [] two_records (VStr "sha-[a/Fisika,b/Kimia]")).
  - reflexivity.
  - reflexivity.
  - vm_compute. reflexivity.
  - vm_compute. reflexivity.
  - exact store_reads_two.
  - exact two_records_not_null.
  - repeat constructor.
Defined.

Lemma create_assigns_before_read_witness :
  <[1%positive := <["id" := VStr (generateScheduleId sample_nondet)]> new_record]> sample_heap
  = <[1%positive := <["id" := VStr (generateScheduleId sample_nondet)]> new_record]> sample_heap
  /\ run (@handler store_engine create_req sample_nondet sample_heap) [unauthorized]
     = Some (<[1%positive := <["id" := VStr (generateScheduleId sample_nondet)]> new_record]>
               sample_heap,
             on_error (mkError (VNum 401) (VStr "Bad credentials") VUndefined VUndefined)).
Proof.
  assert (Hrun : run (@handler store_engine create_req sample_nondet sample_heap)
                   [unauthorized]
                 = Some (<[1%positive :=
                             <["id" := VStr (generateScheduleId sample_nondet)]> new_record]>
                           sample_heap,
                         on_error (mkError (VNum 401) (VStr "Bad credentials")
                                     VUndefined VUndefined)))
    by (vm_compute; reflexivity).
  split; [|exact Hrun].
  apply (@create_assigns_before_read store_engine create_req sample_nondet sample_heap
           1%positive new_record [unauthorized]
           (<[1%positive := <["id" := VStr (generateScheduleId sample_nondet)]> new_record]>
              sample_heap)
           (on_error (mkError (VNum 401) (VStr "Bad credentials") VUndefined VUndefined))
           eq_refl eq_refl eq_refl eq_refl).
  - vm_compute. reflexivity.
  - exact Hrun.
Defined.


Lemma non_array_blob_fails_witness :
  (run (@handler store_engine delete_req sample_nondet sample_heap) [file_of "{}"]
   = Some (sample_heap,
           on_error (@type_error store_engine
                       (NotCallable (VObj ∅) "schedules.findIndex")))
   /\ trace (@handler store_engine delete_req sample_nondet sample_heap) [file_of "{}"]
      = [@get_request store_engine])
  /\ (run (@handler store_engine delete_req sample_nondet sample_heap) [file_of "null"]
      = Some (sample_heap,
              on_error (@type_error store_engine (ReadOfNullish VNull "findIndex")))
      /\ trace (@handler store_engine delete_req sample_nondet sample_heap)
           [file_of "null"]
         = [@get_request store_engine]).
Proof.
  split.
  - apply (proj1 (proj2 (@non_array_blob_fails store_engine delete_req sample_nondet
                           sample_heap (file_of "{}") [] (VObj ∅) (VStr "sha-{}")
                           eq_refl eq_refl (fun xs Heq => ltac:(discriminate Heq))))).
    + reflexivity.
    + reflexivity.
  - apply (proj1 (proj2 (@non_array_blob_fails store_engine delete_req sample_nondet
                           sample_heap (file_of "null") [] VNull (VStr "sha-null")
                           eq_refl eq_refl (fun xs Heq => ltac:(discriminate Heq))))).
    + reflexivity.
    + reflexivity.
Defined.


Lemma validation_reads_six_fields_witness :
  @validateSchedule store_engine sample_heap (sample_record "a" "Fisika")
  = @validateSchedule store_engine ∅ (sample_record "b" "Fisika").
Proof.
  apply (@validation_reads_six_fields store_engine sample_heap ∅
           (sample_record "a" "Fisika") (sample_record "b" "Fisika") eq_refl eq_refl).
  intros k Hk. cbn [In] in Hk.
  destruct Hk as [<-|[<-|[<-|[<-|[<-|[<-|[]]]]]]]; vm_compute; reflexivity.
Defined.

Lemma validation_accepts_exactly_witness :
  @validateSchedule store_engine ∅ (sample_record "a" "Fisika") = Ok [] <->
  (exists c, In c valid_classes /\ field ∅ (sample_record "a" "Fisika") "class" = VStr c)
  /\ (exists d, In d valid_days /\ field ∅ (sample_record "a" "Fisika") "day" = VStr d)
  /\ truthy (field ∅ (sample_record "a" "Fisika") "subject") = true
  /\ truthy (field ∅ (sample_record "a" "Fisika") "teacher") = true
  /\ time_test (field ∅ (sample_record "a" "Fisika") "startTime") = true
  /\ time_test (field ∅ (sample_record "a" "Fisika") "endTime") = true
  /\ date_le (@date_of_time store_engine (field ∅ (sample_record "a" "Fisika") "endTime"))
             (@date_of_time store_engine (field ∅ (sample_record "a" "Fisika") "startTime"))
     = false.
Proof.
  apply (@validation_accepts_exactly store_engine ∅ (sample_record "a" "Fisika")).
  reflexivity.
Defined.

Lemma created_record_is_valid_witness :
  let stored := <["id" := VStr (generateScheduleId sample_nondet)]> new_record in
  let h' := <[1%positive := stored]> sample_heap in
  @validateSchedule store_engine h' (VRef 1%positive) = Ok []
  /\ @validateSchedule store_engine no_heap (VObj stored) = Ok []
  /\ truthy (field no_heap (VObj stored) "id") = true.
Proof.
  apply (@created_record_is_valid store_engine sample_nondet sample_heap 1%positive
           new_record eq_refl).
  vm_compute. reflexivity.
Defined.

Lemma missing_body_fails_without_io_witness :
  @handler store_engine (mkReq "POST" VUndefined VUndefined) sample_nondet sample_heap
  = Ret (sample_heap,
         mkRes (VNum 500)
           (BodyError (VStr "Cannot read properties of undefined (reading 'class')")
              (Some (VStr "No additional details"))))
  /\ @handler store_engine (mkReq "PUT" VNull VUndefined) sample_nondet sample_heap
     = Ret (sample_heap,
            mkRes (VNum 500)
              (BodyError (VStr "Cannot read properties of null (reading 'id')")
                 (Some (VStr "No additional details")))).
Proof.
  split.
  - apply (proj1 (@missing_body_fails_without_io store_engine
                    (mkReq "POST" VUndefined VUndefined) sample_nondet sample_heap
                    eq_refl eq_refl)).
    reflexivity.
  - apply (proj2 (@missing_body_fails_without_io store_engine
                    (mkReq "PUT" VNull VUndefined) sample_nondet sample_heap
                    eq_refl eq_refl)).
    reflexivity.
Defined.

Lemma invalid_json_body_rejected_witness :
  @Part000Api.handler store_engine (mkReq "POST" (VStr "{oops") VUndefined)
    sample_nondet sample_heap
  = Ret (sample_heap, bad_request "Invalid JSON format").
Proof.
  apply (@invalid_json_body_rejected store_engine (mkReq "POST" (VStr "{oops") VUndefined)
           sample_nondet sample_heap "{oops" "Unexpected token { in JSON at position 0").
  - reflexivity.
  - left. reflexivity.
  - reflexivity.
  - reflexivity.
Defined.




Lemma only_create_writes_heap_witness :
  run (@handler store_engine delete_req sample_nondet sample_heap)
    [file_of "[a/Fisika,b/Kimia]"; ok_put]
  = Some (sample_heap,
          mkRes (VNum 200)
            (BodySuccess "Jadwal berhasil dihapus" (sample_record "a" "Fisika")))
  /\ sample_heap = sample_heap.
Proof.
  assert (Hrun : run (@handler store_engine delete_req sample_nondet sample_heap)
                   [file_of "[a/Fisika,b/Kimia]"; ok_put]
                 = Some (sample_heap,
                         mkRes (VNum 200)
                           (BodySuccess "Jadwal berhasil dihapus"
                              (sample_record "a" "Fisika"))))
    by (vm_compute; reflexivity).
  split; [exact Hrun|].
  apply (@only_create_writes_heap store_engine delete_req sample_nondet sample_heap
           [file_of "[a/Fisika,b/Kimia]"; ok_put] sample_heap
           (mkRes (VNum 200)
              (BodySuccess "Jadwal berhasil dihapus" (sample_record "a" "Fisika")))).
  - discriminate.
  - exact Hrun.
Defined.

Section TransportFacts.
Context `{Engine}.

(** X27. A transport failure of the read: whatever the request, nothing
    is written, and when the read was sent the response is 500 with the
    error [Network error] and, as details, the message of the failure, or
    [No additional details] when that message is empty. *)
Theorem network_failure_on_read (req : Request) (nd : Nondet) (h : heap)
    (m : string) (outs : list HttpOutcome) :
  trace (handler req nd h) (NetworkError m :: outs) = []
  \/ (trace (handler req nd h) (NetworkError m :: outs) = [get_request]
      /\ exists h',
           run (handler req nd h) (NetworkError m :: outs)
           = Some (h', mkRes (VNum 500)
                         (BodyError (VStr "Network error")
                            (Some (if String.eqb m "" then VStr "No additional details"
                                   else VStr m))))).
Proof.
  destruct (handler_cases req nd h) as [[res Hh]|Hh]; rewrite Hh;
    [left; reflexivity|].
  rewrite trace_respond, run_respond.
  destruct (disciplined_route req nd h (NetworkError m) outs)
    as [[a Ha]|[(Ht & a & Hrun & Herr)|(s & sha & p & Hok & _)]].
  - left. rewrite Ha. reflexivity.
  - right. split; [exact Ht|]. rewrite Hrun. destruct a as [h' r].
    cbn [snd] in Herr. rewrite (Herr (network_error m) eq_refl). exists h'.
    cbn [fmap option_fmap option_map respond]. unfold on_error, network_error, js_or.
    cbn [statusCode message details errors truthy Z.eqb negb].
    destruct (String.eqb m ""); reflexivity.
  - discriminate Hok.
Qed.

End TransportFacts.
